(** * Strava2Notion: the sync engine of [sync.py] and [notion.py]

    A shallow embedding of the Sport Classifier ([get_sport_type]), the
    Field Mapper and the store operations of [NotionClient], and the
    Orchestrator ([sync_activity] and the loop of [main]), followed by the
    Strava client of [strava.py], the two configuration readers and
    [main] as a whole.

    Conventions.
    - A Python dictionary with string keys is a [gmap string _].
    - A JSON scalar is a [value].  Numbers are exact rationals: the
      properties below are about which fields are written and about control
      flow, and none of them depends on the rounding of binary64.
    - The raw [notion_client.Client] is an interface ([Client]) over an
      abstract world; every call made through it is appended to a trace.
    - [try]/[except] is [catch] in a state-and-exception monad. *)

From Stdlib Require Import QArith Ascii String.
From stdpp Require Import gmap strings list.

Open Scope string_scope.
Set Warnings "-register-all".

(** ** Python values *)

Inductive value :=
  | VNone
  | VBool (b : bool)
  | VNum (q : Q)
  | VStr (s : string).

Inductive exn :=
  | TypeError
  | KeyError
  | ClientError (msg : string).

Inductive result (A : Type) :=
  | Ok (a : A)
  | Raised (e : exn).
Arguments Ok {A} a.
Arguments Raised {A} e.

Definition rbind {A B} (r : result A) (k : A -> result B) : result B :=
  match r with
  | Ok a => k a
  | Raised e => Raised e
  end.

Declare Scope result_scope.
Delimit Scope result_scope with result.
Notation "'let?' x := r 'in' k" := (rbind r (fun x => k))
  (at level 10, x name, r at level 100, k at level 200) : result_scope.

(** [bool(v)]: the truth value Python gives [v] in an [if]. *)
Definition truthy (v : value) : bool :=
  match v with
  | VNone => false
  | VBool b => b
  | VNum q => negb (Qeq_bool q 0)
  | VStr s => negb (String.eqb s "")
  end.

(** The number a value stands for in arithmetic; [bool] is a subclass of
    [int], everything else is not a number. *)
Definition as_num (v : value) : option Q :=
  match v with
  | VBool b => Some (if b then 1%Q else 0%Q)
  | VNum q => Some q
  | VNone | VStr _ => None
  end.

(** [v / n] for a numeric literal [n]. *)
Definition py_div (v : value) (n : Q) : result value :=
  match as_num v with
  | Some q => Ok (VNum (q / n))
  | None => Raised TypeError
  end.

(** [v * f] for a float literal [f]. *)
Definition py_mul_float (v : value) (f : Q) : result value :=
  match as_num v with
  | Some q => Ok (VNum (q * f))
  | None => Raised TypeError
  end.

(** [v * 2]: doubling for numbers, repetition for strings. *)
Definition py_mul_2 (v : value) : result value :=
  match v with
  | VStr s => Ok (VStr (s ++ s))
  | _ => match as_num v with
         | Some q => Ok (VNum (q * 2))
         | None => Raised TypeError
         end
  end.

(** [v > 0]. *)
Definition py_gt_0 (v : value) : result bool :=
  match as_num v with
  | Some q => Ok (negb (Qle_bool q 0))
  | None => Raised TypeError
  end.

(** [d.get(k)] and [d.get(k, dflt)]. *)
Definition get (d : gmap string value) (k : string) : value :=
  default VNone (d !! k).

Definition get_or (d : gmap string value) (k : string) (dflt : value) : value :=
  default dflt (d !! k).

(** ** Sport Classifier ([sync.py]) *)

Definition SPORT_TYPE_MAP_entries : list (string * string) :=
  [ ("Run", "Run");
    ("TrailRun", "Run");
    ("VirtualRun", "Run");
    ("Ride", "Ride");
    ("VirtualRide", "Ride");
    ("MountainBikeRide", "Ride");
    ("GravelRide", "Ride");
    ("EBikeRide", "Ride");
    ("Swim", "Swim");
    ("OpenWaterSwim", "Swim") ].

Definition SPORT_TYPE_MAP : gmap string string :=
  list_to_map SPORT_TYPE_MAP_entries.

(** [SPORT_TYPE_MAP.get(key, 'Other')]: only a string can be one of the keys. *)
Definition sport_type_map_get (key : value) : string :=
  match key with
  | VStr s => default "Other" (SPORT_TYPE_MAP !! s)
  | _ => "Other"
  end.

Definition get_sport_type (activity : gmap string value) : string :=
  let strava_type := get_or activity "type" (VStr "") in
  let sport_type := get_or activity "sport_type" strava_type in
  sport_type_map_get sport_type.

(** ** Field Mapper: the [properties] dictionary of [create_activity] *)

Inductive prop_value :=
  | PTitle (content : value)
  | PNumber (number : value)
  | PSelect (name : string)
  | PDate (start : value)
  | PRelation (ids : list value)
  | PStatus (name : string).

(** Lines 112-149: the branch on [sport_type], applied to the common
    properties [props]. *)
Definition sport_properties (activity_data : gmap string value) (sport_type : string)
    (props : gmap string prop_value) : result (gmap string prop_value) :=
  if String.eqb sport_type "Run" then
    (let? avg_speed_kmh :=
       if truthy (get activity_data "average_speed")
       then py_mul_float (get_or activity_data "average_speed" (VNum 0)) 3.6
       else Ok (VNum 0) in
     let? fast := py_gt_0 avg_speed_kmh in
     let? pace := if fast then py_div (VNum 60) (default 0%Q (as_num avg_speed_kmh))
                  else Ok (VNum 0) in
     let props := <["Average Pace" := PNumber pace]> props in
     let props :=
       if truthy (get activity_data "average_heartrate")
       then <["Average HR" := PNumber (get activity_data "average_heartrate")]> props
       else props in
     if truthy (get activity_data "average_cadence")
     then (let? cadence := py_mul_2 (get activity_data "average_cadence") in
           Ok (<["Cadence" := PNumber cadence]> props))
     else Ok props)%result
  else if String.eqb sport_type "Ride" then
    (let? avg_speed_kmh :=
       if truthy (get activity_data "average_speed")
       then py_mul_float (get_or activity_data "average_speed" (VNum 0)) 3.6
       else Ok (VNum 0) in
     let props := <["Average Speed" := PNumber avg_speed_kmh]> props in
     let props :=
       if truthy (get activity_data "average_watts")
       then <["Average Power" := PNumber (get activity_data "average_watts")]> props
       else props in
     Ok (if truthy (get activity_data "average_heartrate")
         then <["Average HR" := PNumber (get activity_data "average_heartrate")]> props
         else props))%result
  else if String.eqb sport_type "Swim" then
    (let avg_speed_mps := get_or activity_data "average_speed" (VNum 0) in
     let? fast := py_gt_0 avg_speed_mps in
     if fast
     then Ok (<["Average Pace" :=
                  PNumber (VNum ((100 / default 0%Q (as_num avg_speed_mps)) / 60))]> props)
     else Ok props)%result
  else Ok props.

(** Lines 77-149: the whole dictionary handed to [pages.create]. *)
Definition activity_properties (activity_data : gmap string value) (sport_type : string)
    : result (gmap string prop_value) :=
  (let? distance := py_div (get_or activity_data "distance" (VNum 0)) 1000 in
   let? duration := py_div (get_or activity_data "moving_time" (VNum 0)) 60 in
   let props : gmap string prop_value :=
     <["Elevation" := PNumber (get_or activity_data "total_elevation_gain" (VNum 0))]>
     (<["Duration" := PNumber duration]>
     (<["Distance" := PNumber distance]>
     (<["Date" := PDate (get activity_data "start_date")]>
     (<["Type" := PSelect sport_type]>
     (<["Strava ID" := PNumber (get activity_data "id")]>
     (<["Name" := PTitle (get_or activity_data "name" (VStr "Untitled Activity"))]> ∅)))))) in
   sport_properties activity_data sport_type props)%result.

(** ** The raw Notion client and the store it talks to *)

Inductive filter :=
  | FNumberEquals (property : string) (v : value)
  | FDateEquals (property : string) (v : string)
  | FSelectEquals (property : string) (v : string)
  | FAnd (fs : list filter).

(** The response dictionary of [databases.query]; [results] is [None] when
    the key is missing. *)
Record query_response := { results : option (list (gmap string value)) }.

(** The three entry points of [notion_client.Client] the code uses.  Each
    one may change the store and may raise. *)
Record Client (W : Type) := {
  databases_query : string -> filter -> W -> W * result query_response;
  pages_create : string -> gmap string prop_value -> W -> W * result (gmap string value);
  pages_update : value -> gmap string prop_value -> W -> W * result (gmap string value);
}.
Arguments databases_query {W} _ _ _ _.
Arguments pages_create {W} _ _ _ _.
Arguments pages_update {W} _ _ _ _.

Record NotionClient (W : Type) := {
  client : Client W;
  activities_db_id : string;
  planned_db_id : string;
}.
Arguments client {W} _.
Arguments activities_db_id {W} _.
Arguments planned_db_id {W} _.

(** A call made through the raw client, as recorded in the trace. *)
Inductive call :=
  | DatabasesQuery (database_id : string) (f : filter)
  | PagesCreate (database_id : string) (props : gmap string prop_value)
  | PagesUpdate (page_id : value) (props : gmap string prop_value).

Definition is_create (c : call) : bool :=
  match c with PagesCreate _ _ => true | _ => false end.

Definition is_write (c : call) : bool :=
  match c with DatabasesQuery _ _ => false | _ => true end.

Definition is_status_update (c : call) : bool :=
  match c with
  | PagesUpdate _ props =>
      match props !! "Status" with Some _ => true | None => false end
  | _ => false
  end.

Record state (W : Type) := { world : W; calls : list call }.
Arguments world {W} _.
Arguments calls {W} _.

(** ** State and exceptions *)

Definition M (W A : Type) : Type := state W -> state W * result A.

Definition ret {W A} (a : A) : M W A := fun s => (s, Ok a).

Definition raise {W A} (e : exn) : M W A := fun s => (s, Raised e).

Definition bind {W A B} (m : M W A) (k : A -> M W B) : M W B :=
  fun s => match m s with
           | (s', Ok a) => k a s'
           | (s', Raised e) => (s', Raised e)
           end.

(** [try: m  except Exception as e: h e]. *)
Definition catch {W A} (m : M W A) (h : exn -> M W A) : M W A :=
  fun s => match m s with
           | (s', Ok a) => (s', Ok a)
           | (s', Raised e) => h e s'
           end.

Definition lift {W A} (r : result A) : M W A := fun s => (s, r).

Declare Scope m_scope.
Delimit Scope m_scope with M.
Notation "x <- m ;; k" := (bind m (fun x => k))
  (at level 100, m at next level, right associativity) : m_scope.
Open Scope m_scope.

(** [d[k]]. *)
Definition subscript (d : gmap string value) (k : string) : result value :=
  match d !! k with
  | Some v => Ok v
  | None => Raised KeyError
  end.

(** ['T' in s] and [s.split('T')[0]]. *)
Fixpoint contains_T (s : string) : bool :=
  match s with
  | EmptyString => false
  | String c r => if Ascii.eqb c "T"%char then true else contains_T r
  end.

Fixpoint split_T_head (s : string) : string :=
  match s with
  | EmptyString => EmptyString
  | String c r => if Ascii.eqb c "T"%char then EmptyString else String c (split_T_head r)
  end.

(** Line 178 of [notion.py]; the test ['T' in activity_date] raises on
    anything that is not a string. *)
Definition date_only_of (activity_date : value) : result string :=
  match activity_date with
  | VStr s => Ok (if contains_T s then split_T_head s else s)
  | _ => Raised TypeError
  end.

(** The filter and property dictionaries the methods of [NotionClient]
    pass to the raw client. *)
Definition exists_filter (strava_id : value) : filter :=
  FNumberEquals "Strava ID" strava_id.

Definition planned_filter (date_only sport_type : string) : filter :=
  FAnd [FDateEquals "Date" date_only; FSelectEquals "Type" sport_type].

Definition relation_properties (planned_id : value) : gmap string prop_value :=
  {[ "Planned Activity" := PRelation [planned_id] ]}.

Definition status_properties (status : string) : gmap string prop_value :=
  {[ "Status" := PStatus status ]}.

(** [sport_type in ['Run', 'Ride', 'Swim']]. *)
Definition supported (sport_type : string) : bool :=
  existsb (String.eqb sport_type) ["Run"; "Ride"; "Swim"].

Section NotionClient.
Context {W : Type} (self : NotionClient W).

Definition databases_query_call (db : string) (f : filter) : M W query_response :=
  fun s =>
    let (w, r) := databases_query (client self) db f (world s) in
    ({| world := w; calls := calls s ++ [DatabasesQuery db f] |}, r).

Definition pages_create_call (db : string) (props : gmap string prop_value)
    : M W (gmap string value) :=
  fun s =>
    let (w, r) := pages_create (client self) db props (world s) in
    ({| world := w; calls := calls s ++ [PagesCreate db props] |}, r).

Definition pages_update_call (page_id : value) (props : gmap string prop_value)
    : M W (gmap string value) :=
  fun s =>
    let (w, r) := pages_update (client self) page_id props (world s) in
    ({| world := w; calls := calls s ++ [PagesUpdate page_id props] |}, r).

Definition activity_exists (strava_id : value) : M W bool :=
  catch
    (response <- databases_query_call (activities_db_id self) (exists_filter strava_id) ;;
     let exists_ := Nat.ltb 0 (length (default [] (results response))) in
     ret exists_)
    (fun e => raise e).

Definition create_activity (activity_data : gmap string value) (sport_type : string)
    : M W value :=
  catch
    (properties <- lift (activity_properties activity_data sport_type) ;;
     response <- pages_create_call (activities_db_id self) properties ;;
     page_id <- lift (subscript response "id") ;;
     ret page_id)
    (fun _ => ret VNone).

Definition find_planned_activity (activity_date : value) (sport_type : string)
    : M W value :=
  catch
    (date_only <- lift (date_only_of activity_date) ;;
     response <- databases_query_call (planned_db_id self)
                   (planned_filter date_only sport_type) ;;
     match default [] (results response) with
     | first :: _ => planned_id <- lift (subscript first "id") ;; ret planned_id
     | [] => ret VNone
     end)
    (fun _ => ret VNone).

Definition link_to_planned_activity (activity_id planned_id : value) : M W bool :=
  catch
    (_ <- pages_update_call activity_id (relation_properties planned_id) ;;
     ret true)
    (fun _ => ret false).

Definition update_planned_status (planned_id : value) (status : string) : M W bool :=
  catch
    (_ <- pages_update_call planned_id (status_properties status) ;;
     ret true)
    (fun _ => ret false).

(** ** Orchestrator ([sync.py]) *)

Definition sync_activity (activity : gmap string value) : M W bool :=
  let strava_id := get activity "id" in
  catch
    (exists_ <- activity_exists strava_id ;;
     if exists_ then ret true else
     let sport_type := get_sport_type activity in
     if negb (supported sport_type) then ret true else
     activity_id <- create_activity activity sport_type ;;
     if negb (truthy activity_id) then ret false else
     let activity_date := get activity "start_date" in
     planned_id <- find_planned_activity activity_date sport_type ;;
     _ <- (if truthy planned_id then
             link_success <- link_to_planned_activity activity_id planned_id ;;
             if link_success
             then _ <- update_planned_status planned_id "Done" ;; ret tt
             else ret tt
           else ret tt) ;;
     ret true)
    (fun _ => ret false).

(** Lines 141-148 of [main]: the loop and its two counters. *)
Fixpoint sync_loop (activities : list (gmap string value))
    (success_count failure_count : nat) : M W (nat * nat) :=
  match activities with
  | [] => ret (success_count, failure_count)
  | activity :: rest =>
      ok <- sync_activity activity ;;
      if ok then sync_loop rest (S success_count) failure_count
      else sync_loop rest success_count (S failure_count)
  end.

(** Lines 134-152 of [main], from the fetched [activities] on: nothing is
    counted for an empty batch, otherwise the tally of the summary line. *)
Definition main_batch (activities : list (gmap string value))
    : M W (option (nat * nat)) :=
  match activities with
  | [] => ret None
  | _ => tally <- sync_loop activities 0 0 ;; ret (Some tally)
  end.

(** ** Vocabulary of the statements *)

(** [create_activity], run in state [s], hands the dictionary [props] to
    [pages.create]. *)
Definition writes_record (activity_data : gmap string value) (sport_type : string)
    (s : state W) (props : gmap string prop_value) : Prop :=
  calls (create_activity activity_data sport_type s).1
    = (calls s ++ [PagesCreate (activities_db_id self) props])%list.

(** The outcomes of [sync_activity] along a batch, each one run in the
    state its predecessors left. *)
Fixpoint sync_outcomes (activities : list (gmap string value)) (s : state W)
    : list bool :=
  match activities with
  | [] => []
  | activity :: rest =>
      match sync_activity activity s with
      | (s', Ok ok) => ok :: sync_outcomes rest s'
      | (s', Raised _) => []
      end
  end.

(** The state in which a batch leaves the store. *)
Fixpoint sync_final (activities : list (gmap string value)) (s : state W) : state W :=
  match activities with
  | [] => s
  | activity :: rest => sync_final rest (sync_activity activity s).1
  end.

End NotionClient.

Definition count (b : bool) (outcomes : list bool) : nat :=
  length (List.filter (Bool.eqb b) outcomes).

(** The five keys the sport branch of [create_activity] can write. *)
Definition sport_keys : list string :=
  ["Average Pace"; "Average HR"; "Cadence"; "Average Speed"; "Average Power"].

(** The label the classifier looks up according to the specification's
    wording: the sub-type, or the activity type when the sub-type is absent
    or empty. *)
Definition specified_label (activity : gmap string value) : value :=
  match activity !! "sport_type" with
  | None | Some (VStr "") => get_or activity "type" (VStr "")
  | Some sub => sub
  end.

Definition get_sport_type_as_specified (activity : gmap string value) : string :=
  sport_type_map_get (specified_label activity).

(** The label [get_sport_type] looks up: the sub-type whenever the key is
    there, the activity type otherwise. *)
Definition looked_up_label (activity : gmap string value) : value :=
  match activity !! "sport_type" with
  | Some sub => sub
  | None => default (VStr "") (activity !! "type")
  end.
(** ** Configuration ([get_strava_client], [get_notion_client]) *)

(** What [main] can end with besides a return: the [ValueError] of a
    missing configuration, or an exception that came up from below. *)
Inductive fatal :=
  | ValueError (msg : string)
  | Uncaught (e : exn).

Inductive outcome (A : Type) :=
  | Returned (a : A)
  | Fatal (e : fatal).
Arguments Returned {A} a.
Arguments Fatal {A} e.

(** [os.getenv(k)] is [env !! k]; [all([...])] holds when every variable
    is set to a non-empty string. *)
Definition is_set (v : option string) : bool :=
  match v with
  | Some s => negb (String.eqb s "")
  | None => false
  end.

(** The fields of [StravaClient] that [__init__] takes; the mutable
    [access_token] lives in [strava_state]. *)
Record StravaClient := {
  client_id : string;
  client_secret : string;
  refresh_token : string;
}.

Definition strava_missing : string :=
  "Missing required Strava environment variables: STRAVA_CLIENT_ID, STRAVA_CLIENT_SECRET, STRAVA_REFRESH_TOKEN".

Definition notion_missing : string :=
  "Missing required Notion environment variables: NOTION_TOKEN, NOTION_ACTIVITIES_DB_ID, NOTION_PLANNED_DB_ID".

Definition get_strava_client (env : gmap string string) : outcome StravaClient :=
  let client_id := env !! "STRAVA_CLIENT_ID" in
  let client_secret := env !! "STRAVA_CLIENT_SECRET" in
  let refresh_token := env !! "STRAVA_REFRESH_TOKEN" in
  if negb (forallb is_set [client_id; client_secret; refresh_token])
  then Fatal (ValueError strava_missing)
  else Returned {| client_id := default "" client_id;
                   client_secret := default "" client_secret;
                   refresh_token := default "" refresh_token |}.

(** [connect token] is [Client(auth=token)]. *)
Definition get_notion_client {W} (connect : string -> Client W)
    (env : gmap string string) : outcome (NotionClient W) :=
  let token := env !! "NOTION_TOKEN" in
  let activities_db_id := env !! "NOTION_ACTIVITIES_DB_ID" in
  let planned_db_id := env !! "NOTION_PLANNED_DB_ID" in
  if negb (forallb is_set [token; activities_db_id; planned_db_id])
  then Fatal (ValueError notion_missing)
  else Returned {| client := connect (default "" token);
                   activities_db_id := default "" activities_db_id;
                   planned_db_id := default "" planned_db_id |}.

(** ** The Strava client ([strava.py]) *)

Definition BASE_URL : string := "https://www.strava.com/api/v3".
Definition TOKEN_URL : string := "https://www.strava.com/oauth/token".

(** A [requests] response, as far as the code looks at it; [json] has the
    shape the caller's annotations declare. *)
Record response (J : Type) := {
  raise_for_status : result unit;
  json : result J;
}.
Arguments raise_for_status {J} _.
Arguments json {J} _.

(** The query parameters of the activities request; [after] is [None]
    when the key is not in the dictionary. *)
Record params := { per_page : Z; after : option Z }.

(** [requests.post(url, data=...)] and [requests.get(url, headers=...,
    params=...)]; the only header is [Authorization: Bearer <token>]. *)
Record Requests (H : Type) := {
  requests_post : string -> gmap string string -> H
                  -> H * result (response (gmap string value));
  requests_get : string -> value -> params -> H
                 -> H * result (response (list (gmap string value)));
}.
Arguments requests_post {H} _ _ _ _.
Arguments requests_get {H} _ _ _ _.

Inductive http_call :=
  | HttpPost (url : string) (data : gmap string string)
  | HttpGet (url : string) (bearer : value) (p : params).

Definition is_post (c : http_call) : bool :=
  match c with HttpPost _ _ => true | HttpGet _ _ _ => false end.

Record strava_state (H : Type) := {
  http : H;
  http_calls : list http_call;
  access_token : value;
}.
Arguments http {H} _.
Arguments http_calls {H} _.
Arguments access_token {H} _.

Definition token_payload (self : StravaClient) : gmap string string :=
  <["refresh_token" := refresh_token self]>
  (<["grant_type" := "refresh_token"]>
  (<["client_secret" := client_secret self]>
  (<["client_id" := client_id self]> ∅))).

Section StravaClient.
Context {H : Type} (requests : Requests H) (self : StravaClient).

(** The handler logs and re-raises, and what is no [RequestException]
    goes up as well: every error of the body is the error of the call. *)
Definition get_access_token (st : strava_state H) : strava_state H * result value :=
  let payload := token_payload self in
  let (h, r) := requests_post requests TOKEN_URL payload (http st) in
  let sent := (http_calls st ++ [HttpPost TOKEN_URL payload])%list in
  match (let? response := r in
         let? _ := raise_for_status response in
         let? token_data := json response in
         subscript token_data "access_token")%result with
  | Ok token =>
      ({| http := h; http_calls := sent; access_token := token |}, Ok token)
  | Raised e =>
      ({| http := h; http_calls := sent; access_token := access_token st |}, Raised e)
  end.

(** [if after: params['after'] = after]. *)
Definition activity_params (after : option Z) (per_page : Z) : params :=
  {| per_page := per_page;
     after := match after with
              | Some a => if Z.eqb a 0 then None else Some a
              | None => None
              end |}.

Definition activities_url : string := BASE_URL ++ "/athlete/activities".

Definition get_activities (after : option Z) (per_page : Z) (st : strava_state H)
    : strava_state H * result (list (gmap string value)) :=
  let (st1, refreshed) :=
    if negb (truthy (access_token st))
    then get_access_token st
    else (st, Ok (access_token st)) in
  match refreshed with
  | Raised e => (st1, Raised e)
  | Ok _ =>
      let p := activity_params after per_page in
      let (h, r) := requests_get requests activities_url (access_token st1) p (http st1) in
      ({| http := h;
          http_calls := http_calls st1 ++ [HttpGet activities_url (access_token st1) p];
          access_token := access_token st1 |},
       (let? response := r in
        let? _ := raise_for_status response in
        json response)%result)
  end.

End StravaClient.

(** ** [main] ([sync.py]) *)

(** [main], with the environment, the reading of the clock
    ([after_timestamp], seven days back) and the two services passed in.
    A fresh [StravaClient] has no token and both traces start empty. *)
Definition main {H W} (requests : Requests H) (connect : string -> Client W)
    (env : gmap string string) (after_timestamp : Z) (h : H) (w : W)
    : (strava_state H * state W) * outcome (option (nat * nat)) :=
  let st := {| http := h; http_calls := []; access_token := VNone |} in
  let n := {| world := w; calls := [] |} in
  match get_strava_client env with
  | Fatal e => ((st, n), Fatal e)
  | Returned strava_client =>
      match get_notion_client connect env with
      | Fatal e => ((st, n), Fatal e)
      | Returned notion_client =>
          match get_activities requests strava_client (Some after_timestamp) 30 st with
          | (st', Raised e) => ((st', n), Fatal (Uncaught e))
          | (st', Ok activities) =>
              match main_batch notion_client activities n with
              | (n', Ok tally) => ((st', n'), Returned tally)
              | (n', Raised e) => ((st', n'), Fatal (Uncaught e))
              end
          end
      end
  end.

(** ** A scripted store, for running the model on concrete batches *)

Module Mock.

Record script := {
  on_exists : value -> result query_response;
  on_create : gmap string prop_value -> result (gmap string value);
  on_planned : string -> result query_response;
  on_link : result (gmap string value);
  on_status : result (gmap string value);
}.

Definition date_of_filter (f : filter) : string :=
  match f with
  | FAnd (FDateEquals _ d :: _) => d
  | _ => ""
  end.

Definition scripted (sc : script) : Client unit := {|
  databases_query _ f w :=
    (w, match f with
        | FNumberEquals _ v => on_exists sc v
        | _ => on_planned sc (date_of_filter f)
        end);
  pages_create _ props w := (w, on_create sc props);
  pages_update _ props w :=
    (w, match props !! "Status" with
        | Some _ => on_status sc
        | None => on_link sc
        end);
|}.

Definition notion (sc : script) : NotionClient unit :=
  {| client := scripted sc; activities_db_id := "activities"; planned_db_id := "planned" |}.

Definition init : state unit := {| world := tt; calls := [] |}.

Definition page (id : string) : gmap string value := {[ "id" := VStr id ]}.

Definition found (ids : list string) : result query_response :=
  Ok {| results := Some (page <$> ids) |}.

(** An empty store that accepts every write and holds two plans per day. *)
Definition healthy : script := {|
  on_exists _ := found [];
  on_create _ := Ok (page "new-page");
  on_planned _ := found ["plan-1"; "plan-2"];
  on_link := Ok (page "new-page");
  on_status := Ok (page "plan-1");
|}.

(** The existence query times out. *)
Definition unreachable : script := {|
  on_exists _ := Raised (ClientError "timeout");
  on_create := on_create healthy;
  on_planned := on_planned healthy;
  on_link := on_link healthy;
  on_status := on_status healthy;
|}.

(** Every activity is already there. *)
Definition synced : script := {|
  on_exists _ := found ["old-page"];
  on_create := on_create healthy;
  on_planned := on_planned healthy;
  on_link := on_link healthy;
  on_status := on_status healthy;
|}.

(** The store refuses the record whose Strava ID is 2. *)
Definition rejects_2 : script := {|
  on_exists := on_exists healthy;
  on_create props :=
    match props !! "Strava ID" with
    | Some (PNumber (VNum q)) =>
        if Qeq_bool q 2 then Raised (ClientError "validation") else Ok (page "new-page")
    | _ => Ok (page "new-page")
    end;
  on_planned := on_planned healthy;
  on_link := on_link healthy;
  on_status := on_status healthy;
|}.

(** The relation cannot be written. *)
Definition no_link : script := {|
  on_exists := on_exists healthy;
  on_create := on_create healthy;
  on_planned := on_planned healthy;
  on_link := Raised (ClientError "no such property");
  on_status := on_status healthy;
|}.

(** The planned-activity query fails. *)
Definition no_plans : script := {|
  on_exists := on_exists healthy;
  on_create := on_create healthy;
  on_planned _ := Raised (ClientError "timeout");
  on_link := on_link healthy;
  on_status := on_status healthy;
|}.

Definition activity (id : Q) (name type start : string) : gmap string value :=
  <["start_date" := VStr start]> (<["type" := VStr type]>
  (<["name" := VStr name]> (<["id" := VNum id]> ∅))).

Definition morning_run : gmap string value :=
  activity 42 "Morning Run" "Run" "2024-05-01T07:00:00Z".

Definition paced_run : gmap string value :=
  <["average_heartrate" := VNum 150]> (<["average_speed" := VNum 3]> morning_run).

(** A run recorded with an average speed of zero. *)
Definition still_run : gmap string value :=
  <["average_speed" := VNum 0]> morning_run.

Definition fast_ride : gmap string value :=
  <["average_speed" := VNum 10]> (activity 5 "Commute" "Ride" "2024-05-05T08:00:00Z").

Definition slow_swim : gmap string value :=
  <["average_speed" := VNum 1]> (activity 6 "Laps" "Swim" "2024-05-05T18:00:00Z").

Definition unnamed_run : gmap string value :=
  activity 43 "" "Run" "2024-05-02T07:00:00Z".

Definition nameless_run : gmap string value := delete "name" morning_run.

Definition yoga : gmap string value :=
  activity 7 "Yoga" "Yoga" "2024-05-03T18:00:00Z".

(** A run whose sub-type is the empty string. *)
Definition blank_subtype_run : gmap string value :=
  <["sport_type" := VStr ""]> morning_run.

Definition trail_run : gmap string value :=
  <["sport_type" := VStr "TrailRun"]> (activity 9 "Hills" "Run" "2024-05-04T08:00:00Z").

Definition batch : list (gmap string value) :=
  [ activity 1 "Monday" "Run" "2024-05-06T07:00:00Z";
    activity 2 "Tuesday" "Ride" "2024-05-07T07:00:00Z";
    activity 3 "Wednesday" "Swim" "2024-05-08T07:00:00Z" ].

(** The dictionary [create_activity] builds for an activity. *)
Definition sent (activity_data : gmap string value) (sport_type : string)
    : gmap string prop_value :=
  match activity_properties activity_data sport_type with
  | Ok props => props
  | Raised _ => ∅
  end.

End Mock.

(** ** Further vocabulary *)

(** A value Python can do arithmetic on. *)
Definition numeric (v : value) : bool :=
  match as_num v with Some _ => true | None => false end.

(** The records for which building the dictionary of [create_activity]
    raises nothing. *)
Definition sendable (activity_data : gmap string value) (sport_type : string) : bool :=
  numeric (get_or activity_data "distance" (VNum 0))
  && numeric (get_or activity_data "moving_time" (VNum 0))
  && (if String.eqb sport_type "Swim"
      then numeric (get_or activity_data "average_speed" (VNum 0))
      else true)
  && (if String.eqb sport_type "Run" || String.eqb sport_type "Ride"
      then implb (truthy (get activity_data "average_speed"))
                 (numeric (get activity_data "average_speed"))
      else true).

(** The seven keys every record of [create_activity] has. *)
Definition common_keys : list string :=
  ["Name"; "Strava ID"; "Type"; "Date"; "Distance"; "Duration"; "Elevation"].

(** The five steps of one activity's sync, in the order of [sync_activity]. *)
Inductive step := SExists | SCreate | SMatch | SLink | SStatus.

Definition call_step (c : call) : step :=
  match c with
  | DatabasesQuery _ (FNumberEquals _ _) => SExists
  | DatabasesQuery _ _ => SMatch
  | PagesCreate _ _ => SCreate
  | PagesUpdate _ props =>
      match props !! "Status" with Some _ => SStatus | None => SLink end
  end.

Definition protocol : list step := [SExists; SCreate; SMatch; SLink; SStatus].

Definition is_exists_query (c : call) : bool :=
  match call_step c with SExists => true | _ => false end.

(** A scripted Strava, for running [get_activities] and [main]. *)
Module MockStrava.

Definition athlete : StravaClient :=
  {| client_id := "12345"; client_secret := "secret"; refresh_token := "refresh" |}.

Definition token_response (token : string) : response (gmap string value) :=
  {| raise_for_status := Ok tt; json := Ok {[ "access_token" := VStr token ]} |}.

Definition list_response (activities : list (gmap string value))
    : response (list (gmap string value)) :=
  {| raise_for_status := Ok tt; json := Ok activities |}.

(** Strava answers every request. *)
Definition online (activities : list (gmap string value)) : Requests unit := {|
  requests_post _ _ h := (h, Ok (token_response "token-1"));
  requests_get _ _ _ h := (h, Ok (list_response activities));
|}.

(** The token endpoint refuses the credentials. *)
Definition unauthorized : Requests unit := {|
  requests_post _ _ h :=
    (h, Ok {| raise_for_status := Raised (ClientError "401"); json := Raised TypeError |});
  requests_get _ _ _ h := (h, Ok (list_response []));
|}.

(** The activities endpoint cannot be reached. *)
Definition flaky : Requests unit := {|
  requests_post _ _ h := (h, Ok (token_response "token-1"));
  requests_get _ _ _ h := (h, Raised (ClientError "timeout"));
|}.

Definition fresh : strava_state unit :=
  {| http := tt; http_calls := []; access_token := VNone |}.

Definition environment : gmap string string :=
  <["NOTION_PLANNED_DB_ID" := "planned"]>
  (<["NOTION_ACTIVITIES_DB_ID" := "activities"]>
  (<["NOTION_TOKEN" := "secret_notion"]>
  (<["STRAVA_REFRESH_TOKEN" := "refresh"]>
  (<["STRAVA_CLIENT_SECRET" := "secret"]>
  (<["STRAVA_CLIENT_ID" := "12345"]> ∅))))).

End MockStrava.

(** Further records and settings to run the model on. *)
Module Samples.


(** A run whose distance came as [null]. *)
Definition null_distance_run : gmap string value :=
  <["distance" := VNone]> Mock.morning_run.


Definition tuesday_ride : gmap string value :=
  Mock.activity 2 "Tuesday" "Ride" "2024-05-07T07:00:00Z".

(** A Strava client that already holds a token. *)
Definition signed_in : strava_state unit :=
  {| http := tt; http_calls := []; access_token := VStr "token-0" |}.

Definition connect (sc : Mock.script) (token : string) : Client unit :=
  Mock.scripted sc.

(** The environment without the Notion token. *)
Definition no_notion_token : gmap string string :=
  delete "NOTION_TOKEN" MockStrava.environment.

(** The environment with an empty Strava client secret. *)
Definition empty_secret : gmap string string :=
  <["STRAVA_CLIENT_SECRET" := ""]> MockStrava.environment.

Definition notion_of_environment (sc : Mock.script) : NotionClient unit :=
  {| client := Mock.scripted sc;
     activities_db_id := "activities";
     planned_db_id := "planned" |}.

End Samples.

(** * Properties *)

(** ** Field Mapper *)

Ltac split_result :=
  repeat match goal with
    | H : rbind ?r _ = Ok _ |- _ =>
        let E := fresh "E" in destruct r eqn:E; simpl in H; [| discriminate H]
    | H : (if ?b then _ else _) = Ok _ |- _ =>
        let E := fresh "E" in destruct b eqn:E; simpl in H
    | H : Ok _ = Ok _ |- _ => injection H as H; subst
    | H : Raised _ = Ok _ |- _ => discriminate H
    end.

(** The sport branch only ever writes the five sport keys. *)
Lemma sport_properties_frame activity_data sport_type props props' k :
  sport_properties activity_data sport_type props = Ok props' ->
  k ∉ sport_keys ->
  props' !! k = props !! k.
Proof.
  intros H Hk. unfold sport_keys in Hk.
  repeat (apply not_elem_of_cons in Hk as [? Hk]).
  unfold sport_properties in H. split_result; repeat case_match;
    repeat (rewrite lookup_insert_ne by congruence); reflexivity.
Qed.

Ltac not_sport_key :=
  unfold sport_keys;
  repeat (apply not_elem_of_cons; split; [discriminate |]); apply not_elem_of_nil.

(** The common part of the dictionary, whatever the sport branch adds. *)
Lemma activity_properties_common activity_data sport_type props :
  activity_properties activity_data sport_type = Ok props ->
  props !! "Name"
    = Some (PTitle (get_or activity_data "name" (VStr "Untitled Activity")))
  /\ props !! "Strava ID" = Some (PNumber (get activity_data "id"))
  /\ props !! "Type" = Some (PSelect sport_type)
  /\ props !! "Date" = Some (PDate (get activity_data "start_date")).
Proof.
  unfold activity_properties. intros H.
  destruct (py_div (get_or activity_data "distance" _) _) as [distance|]; [|discriminate].
  destruct (py_div (get_or activity_data "moving_time" _) _) as [duration|]; [|discriminate].
  simpl in H.
  repeat split;
    (erewrite sport_properties_frame; [| exact H | not_sport_key]);
    repeat (rewrite lookup_insert_ne by done); by rewrite lookup_insert_eq.
Qed.

Ltac map_lookup :=
  repeat first
    [ rewrite lookup_insert_eq
    | rewrite lookup_insert_ne by discriminate
    | rewrite lookup_empty ].

Ltac map_lookup_in H :=
  repeat first
    [ rewrite lookup_insert_eq in H
    | rewrite lookup_insert_ne in H by discriminate
    | rewrite lookup_empty in H ].

Lemma py_gt_0_true v :
  py_gt_0 v = Ok true -> exists q, as_num v = Some q /\ (0 < q)%Q.
Proof.
  unfold py_gt_0. destruct (as_num v) as [q|]; [|discriminate].
  intros [= H]. exists q. split; [reflexivity|].
  apply negb_true_iff in H. apply Qnot_le_lt. intros Hle.
  apply Qle_bool_iff in Hle. congruence.
Qed.

Lemma get_or_num_positive (d : gmap string value) k q :
  as_num (get_or d k (VNum 0)) = Some q -> (0 < q)%Q -> as_num (get d k) = Some q.
Proof.
  unfold get_or, get. destruct (d !! k) as [v|]; simpl; [done|].
  intros [= <-] H. by apply Qlt_irrefl in H.
Qed.

(** What the sport branch adds to the dictionary, field by field. *)
Lemma activity_properties_sport_fields activity_data sport_type props :
  activity_properties activity_data sport_type = Ok props ->
  (forall v, props !! "Average HR" = Some v ->
     truthy (get activity_data "average_heartrate") = true
     /\ v = PNumber (get activity_data "average_heartrate")
     /\ (sport_type = "Run" \/ sport_type = "Ride"))
  /\ (forall v, props !! "Cadence" = Some v ->
     truthy (get activity_data "average_cadence") = true /\ sport_type = "Run")
  /\ (forall v, props !! "Average Power" = Some v ->
     truthy (get activity_data "average_watts") = true
     /\ v = PNumber (get activity_data "average_watts")
     /\ sport_type = "Ride")
  /\ (sport_type = "Swim" -> forall v, props !! "Average Pace" = Some v ->
     exists q, as_num (get activity_data "average_speed") = Some q /\ (0 < q)%Q)
  /\ (sport_type = "Run" -> exists v,
     props !! "Average Pace" = Some (PNumber v)
     /\ (truthy (get activity_data "average_speed") = false -> v = VNum 0))
  /\ (sport_type = "Ride" -> exists v,
     props !! "Average Speed" = Some (PNumber v)
     /\ (truthy (get activity_data "average_speed") = false -> v = VNum 0)).
Proof.
  unfold activity_properties. intros H.
  destruct (py_div (get_or activity_data "distance" _) _) as [distance|]; [|discriminate].
  destruct (py_div (get_or activity_data "moving_time" _) _) as [duration|]; [|discriminate].
  simpl in H. unfold sport_properties in H.
  split_result;
    repeat match goal with
      | E : (_ =? _) = true |- _ => apply String.eqb_eq in E; subst
      | E : (_ =? _) = false |- _ => apply String.eqb_neq in E
      end.
  all: repeat split; intros; subst; try discriminate.
  all: repeat match goal with
         | H : context [if ?b then _ else _] |- _ => destruct b eqn:?
         | |- context [if ?b then _ else _] => destruct b eqn:?
         | H : _ !! _ = Some _ |- _ => progress (map_lookup_in H)
         | H : Some _ = Some _ |- _ => injection H as H; subst
         | H : None = Some _ |- _ => discriminate H
         end.
  all: try (repeat split; auto; congruence).
  all: try (eexists; split; [map_lookup; reflexivity | congruence]).
  all: try (match goal with E : py_gt_0 _ = Ok true |- _ =>
              apply py_gt_0_true in E as (q & Hq & Hpos) end;
            exists q; split; [by apply get_or_num_positive | done]).
Qed.

(** ** [create_activity]: what it sends and what it returns *)

Section CreateActivity.
Context {W : Type} (self : NotionClient W).

Lemma create_activity_run activity_data sport_type s :
  create_activity self activity_data sport_type s =
    match activity_properties activity_data sport_type with
    | Raised _ => (s, Ok VNone)
    | Ok properties =>
        let (w, r) :=
          pages_create (client self) (activities_db_id self) properties (world s) in
        ({| world := w;
            calls := calls s ++ [PagesCreate (activities_db_id self) properties] |},
         Ok (match r with
             | Ok response => default VNone (response !! "id")
             | Raised _ => VNone
             end))
    end.
Proof.
  unfold create_activity, catch, bind, lift, pages_create_call, subscript, ret.
  destruct (activity_properties activity_data sport_type) as [properties|]; [|done].
  destruct (pages_create _ _ _ _) as [w [response|]]; [|done].
  by destruct (response !! "id").
Qed.

Lemma writes_record_properties activity_data sport_type s props :
  writes_record self activity_data sport_type s props ->
  activity_properties activity_data sport_type = Ok props.
Proof.
  unfold writes_record. rewrite create_activity_run.
  destruct (activity_properties activity_data sport_type) as [properties|]; simpl.
  - destruct (pages_create _ _ _ _) as [w r]; simpl.
    intros H. apply app_inv_head in H. by injection H as ->.
  - intros H. rewrite <- (app_nil_r (calls s)) in H at 1.
    apply app_inv_head in H. discriminate H.
Qed.

Lemma properties_written activity_data sport_type s props :
  activity_properties activity_data sport_type = Ok props ->
  writes_record self activity_data sport_type s props.
Proof.
  unfold writes_record. rewrite create_activity_run. intros ->.
  by destruct (pages_create _ _ _ _).
Qed.

End CreateActivity.

(** Truncating a timestamp at its first ['T']. *)
Lemma split_T_head_prefix s : exists rest, s = split_T_head s ++ rest.
Proof.
  induction s as [|c r [rest IH]]; simpl.
  - by exists "".
  - destruct (Ascii.eqb c "T"); simpl.
    + by eexists.
    + exists rest. change (String c r = String c (split_T_head r ++ rest)).
      by f_equal.
Qed.

Lemma split_T_head_no_T s : contains_T (split_T_head s) = false.
Proof.
  induction s as [|c r IH]; simpl; [done|].
  destruct (Ascii.eqb c "T") eqn:E; simpl; [done|]. by rewrite E.
Qed.

Lemma split_T_head_id s : split_T_head s = s <-> contains_T s = false.
Proof.
  split.
  - intros <-. apply split_T_head_no_T.
  - induction s as [|c r IH]; simpl; [done|].
    destruct (Ascii.eqb c "T"); [done|]. intros H. by rewrite IH.
Qed.

Lemma date_only_of_str s : date_only_of (VStr s) = Ok (split_T_head s).
Proof.
  simpl. destruct (contains_T s) eqn:E; [done|].
  f_equal. symmetry. by apply split_T_head_id.
Qed.

(** ** The other store operations, run in a state *)

Section Operations.
Context {W : Type} (self : NotionClient W).

Lemma activity_exists_run strava_id s :
  activity_exists self strava_id s =
    let (w, r) := databases_query (client self) (activities_db_id self)
                    (exists_filter strava_id) (world s) in
    ({| world := w;
        calls := calls s ++ [DatabasesQuery (activities_db_id self)
                               (exists_filter strava_id)] |},
     match r with
     | Ok response => Ok (Nat.ltb 0 (length (default [] (results response))))
     | Raised e => Raised e
     end).
Proof.
  unfold activity_exists, catch, bind, databases_query_call, ret, raise, exists_filter.
  by destruct (databases_query _ _ _ _) as [w [response|e]].
Qed.

Lemma find_planned_activity_run activity_date sport_type s :
  find_planned_activity self activity_date sport_type s =
    match date_only_of activity_date with
    | Raised _ => (s, Ok VNone)
    | Ok date_only =>
        let (w, r) := databases_query (client self) (planned_db_id self)
                        (planned_filter date_only sport_type) (world s) in
        ({| world := w;
            calls := calls s ++ [DatabasesQuery (planned_db_id self)
                                   (planned_filter date_only sport_type)] |},
         Ok (match r with
             | Ok response =>
                 match default [] (results response) with
                 | first :: _ => default VNone (first !! "id")
                 | [] => VNone
                 end
             | Raised _ => VNone
             end))
    end.
Proof.
  unfold find_planned_activity, catch, bind, lift, databases_query_call, ret,
    planned_filter, subscript.
  destruct (date_only_of activity_date) as [date_only|]; [|done].
  destruct (databases_query _ _ _ _) as [w [response|e]]; [|done].
  destruct (default [] (results response)) as [|first rest]; [done|].
  by destruct (first !! "id").
Qed.

Lemma link_to_planned_activity_run activity_id planned_id s :
  link_to_planned_activity self activity_id planned_id s =
    let (w, r) := pages_update (client self) activity_id
                    (relation_properties planned_id) (world s) in
    ({| world := w;
        calls := calls s ++ [PagesUpdate activity_id (relation_properties planned_id)] |},
     Ok (match r with Ok _ => true | Raised _ => false end)).
Proof.
  unfold link_to_planned_activity, catch, bind, pages_update_call, ret,
    relation_properties.
  by destruct (pages_update _ _ _ _) as [w [response|e]].
Qed.

Lemma update_planned_status_run planned_id status s :
  update_planned_status self planned_id status s =
    let (w, r) := pages_update (client self) planned_id
                    (status_properties status) (world s) in
    ({| world := w;
        calls := calls s ++ [PagesUpdate planned_id (status_properties status)] |},
     Ok (match r with Ok _ => true | Raised _ => false end)).
Proof.
  unfold update_planned_status, catch, bind, pages_update_call, ret,
    status_properties.
  by destruct (pages_update _ _ _ _) as [w [response|e]].
Qed.

(** The handler of [sync_activity] turns every exception into [False]. *)
Lemma sync_activity_returns activity s :
  exists s' ok, sync_activity self activity s = (s', Ok ok).
Proof.
  unfold sync_activity, catch.
  match goal with |- context [match ?m s with _ => _ end] => destruct (m s) as [s' [ok|e]] end;
    eauto.
Qed.

Lemma sync_outcomes_length activities s :
  length (sync_outcomes self activities s) = length activities.
Proof.
  revert s. induction activities as [|activity rest IH]; intros s; simpl; [done|].
  destruct (sync_activity_returns activity s) as (s' & ok & ->). simpl.
  by rewrite IH.
Qed.

Lemma sync_loop_run activities success_count failure_count s :
  sync_loop self activities success_count failure_count s =
    (sync_final self activities s,
     Ok (success_count + count true (sync_outcomes self activities s),
         failure_count + count false (sync_outcomes self activities s))).
Proof.
  revert success_count failure_count s.
  induction activities as [|activity rest IH]; intros sc fc s; simpl.
  - unfold ret, count. simpl. by rewrite !Nat.add_0_r.
  - unfold bind at 1.
    destruct (sync_activity_returns activity s) as (s' & ok & ->). simpl.
    destruct ok; rewrite IH; unfold count; simpl; do 3 f_equal; lia.
Qed.

Lemma count_partition outcomes :
  count true outcomes + count false outcomes = length outcomes.
Proof.
  unfold count. induction outcomes as [|[] rest IH]; simpl; lia.
Qed.

End Operations.

(** ** The model on concrete records *)

Example healthy_sync_trace :
  sync_activity (Mock.notion Mock.healthy) Mock.morning_run Mock.init
    = ({| world := tt;
          calls :=
            [ DatabasesQuery "activities" (exists_filter (VNum 42));
              PagesCreate "activities" (Mock.sent Mock.morning_run "Run");
              DatabasesQuery "planned" (planned_filter "2024-05-01" "Run");
              PagesUpdate (VStr "new-page") (relation_properties (VStr "plan-1"));
              PagesUpdate (VStr "plan-1") (status_properties "Done") ] |},
       Ok true).
Proof. vm_compute. reflexivity. Qed.

Example ride_speed_kmh :
  exists q, Mock.sent Mock.fast_ride "Ride" !! "Average Speed" = Some (PNumber (VNum q))
            /\ (q == 36)%Q.
Proof. eexists. split; [vm_compute; reflexivity | reflexivity]. Qed.

Example swim_pace_per_100m :
  exists q, Mock.sent Mock.slow_swim "Swim" !! "Average Pace" = Some (PNumber (VNum q))
            /\ (q == 100 / 60)%Q.
Proof. eexists. split; [vm_compute; reflexivity | reflexivity]. Qed.

Example classifier_samples :
  get_sport_type Mock.morning_run = "Run"
  /\ get_sport_type Mock.fast_ride = "Ride"
  /\ get_sport_type Mock.slow_swim = "Swim"
  /\ get_sport_type Mock.yoga = "Other"
  /\ get_sport_type ∅ = "Other".
Proof. by vm_compute. Qed.

(** ** Sport Classifier *)

Lemma sport_type_map_get_unmapped s :
  s ∉ (SPORT_TYPE_MAP_entries.*1) -> sport_type_map_get (VStr s) = "Other".
Proof.
  intros H. simpl. unfold SPORT_TYPE_MAP.
  by rewrite (not_elem_of_list_to_map_1 _ _ H).
Qed.

Lemma get_sport_type_label activity :
  get_sport_type activity = sport_type_map_get (looked_up_label activity).
Proof.
  unfold get_sport_type, looked_up_label, get_or.
  by destruct (activity !! "sport_type").
Qed.

(** C3, as the code has it: [get_sport_type] looks up the sub-type value
    whenever the record has the key, even when it is the empty string, and
    the activity type only when the key is absent; the ten labels of the
    table go to Run, Ride or Swim, and every other label to Other. *)
Theorem get_sport_type_table (activity : gmap string value) :
  get_sport_type activity = sport_type_map_get (looked_up_label activity)
  /\ (forall s, looked_up_label activity = VStr s ->
        s ∈ ["Run"; "TrailRun"; "VirtualRun"] -> get_sport_type activity = "Run")
  /\ (forall s, looked_up_label activity = VStr s ->
        s ∈ ["Ride"; "VirtualRide"; "MountainBikeRide"; "GravelRide"; "EBikeRide"] ->
        get_sport_type activity = "Ride")
  /\ (forall s, looked_up_label activity = VStr s ->
        s ∈ ["Swim"; "OpenWaterSwim"] -> get_sport_type activity = "Swim")
  /\ (forall s, looked_up_label activity = VStr s ->
        s ∉ ["Run"; "TrailRun"; "VirtualRun"; "Ride"; "VirtualRide";
             "MountainBikeRide"; "GravelRide"; "EBikeRide"; "Swim"; "OpenWaterSwim"] ->
        get_sport_type activity = "Other")
  /\ ((forall s, looked_up_label activity <> VStr s) -> get_sport_type activity = "Other").
Proof.
  rewrite get_sport_type_label.
  split; [reflexivity|].
  split; [|split; [|split; [|split]]].
  - intros s -> Hin.
    repeat (apply elem_of_cons in Hin as [->|Hin]; [reflexivity|]).
    by apply elem_of_nil in Hin.
  - intros s -> Hin.
    repeat (apply elem_of_cons in Hin as [->|Hin]; [reflexivity|]).
    by apply elem_of_nil in Hin.
  - intros s -> Hin.
    repeat (apply elem_of_cons in Hin as [->|Hin]; [reflexivity|]).
    by apply elem_of_nil in Hin.
  - intros s -> Hin. by apply sport_type_map_get_unmapped.
  - intros Hs. destruct (looked_up_label activity) as [| | |label]; try reflexivity.
    by destruct (Hs label).
Qed.

Lemma get_sport_type_table_witness :
  looked_up_label Mock.trail_run = VStr "TrailRun"
  /\ get_sport_type Mock.trail_run = "Run".
Proof.
  split; [reflexivity|].
  apply (proj1 (proj2 (get_sport_type_table Mock.trail_run)) "TrailRun").
  - reflexivity.
  - apply list_elem_of_further, list_elem_of_here.
Defined.

(** An empty sub-type is looked up as it is and is no label of the table,
    while the activity type the specification falls back to is. *)
Lemma get_sport_type_blank_subtype :
  Mock.blank_subtype_run !! "sport_type" = Some (VStr "")
  /\ Mock.blank_subtype_run !! "type" = Some (VStr "Run")
  /\ get_sport_type Mock.blank_subtype_run = "Other"
  /\ get_sport_type_as_specified Mock.blank_subtype_run = "Run".
Proof. by vm_compute. Qed.

(** ** Field Mapper, as [create_activity] sends it *)

(** C9, as the code has it: the title is the placeholder exactly when the
    record has no [name] key; a name that is there, the empty string
    included, is written unchanged. *)
Theorem create_activity_title {W} (self : NotionClient W)
    (activity_data : gmap string value) (sport_type : string) (s : state W)
    (props : gmap string prop_value) :
  writes_record self activity_data sport_type s props ->
  props !! "Name"
    = Some (PTitle (match activity_data !! "name" with
                    | Some name => name
                    | None => VStr "Untitled Activity"
                    end)).
Proof.
  intros H. apply writes_record_properties in H.
  apply activity_properties_common in H as (-> & _).
  unfold get_or. by destruct (activity_data !! "name").
Qed.

Lemma create_activity_title_witness :
  writes_record (Mock.notion Mock.healthy) Mock.nameless_run "Run" Mock.init
    (Mock.sent Mock.nameless_run "Run")
  /\ Mock.sent Mock.nameless_run "Run" !! "Name"
     = Some (PTitle (VStr "Untitled Activity")).
Proof.
  assert (H : writes_record (Mock.notion Mock.healthy) Mock.nameless_run "Run" Mock.init
                (Mock.sent Mock.nameless_run "Run")).
  { apply properties_written. vm_compute. reflexivity. }
  split; [exact H|].
  exact (create_activity_title _ _ _ _ _ H).
Defined.

(** A record whose name is the empty string gets the empty title. *)
Lemma create_activity_empty_title :
  Mock.unnamed_run !! "name" = Some (VStr "")
  /\ writes_record (Mock.notion Mock.healthy) Mock.unnamed_run "Run" Mock.init
       (Mock.sent Mock.unnamed_run "Run")
  /\ Mock.sent Mock.unnamed_run "Run" !! "Name" = Some (PTitle (VStr "")).
Proof.
  split; [reflexivity|]. split.
  - apply properties_written. vm_compute. reflexivity.
  - vm_compute. reflexivity.
Qed.

(** C1, as the code has it: Average HR, Cadence, Average Power and the swim
    Average Pace are written only when their source input is present and
    non-zero (positive for the swim pace); the run's Average Pace and the
    ride's Average Speed are always written, as 0 when the average speed is
    absent or zero. *)
Theorem create_activity_sport_fields {W} (self : NotionClient W)
    (activity_data : gmap string value) (sport_type : string) (s : state W)
    (props : gmap string prop_value) :
  writes_record self activity_data sport_type s props ->
  (forall v, props !! "Average HR" = Some v ->
     truthy (get activity_data "average_heartrate") = true
     /\ v = PNumber (get activity_data "average_heartrate")
     /\ (sport_type = "Run" \/ sport_type = "Ride"))
  /\ (forall v, props !! "Cadence" = Some v ->
     truthy (get activity_data "average_cadence") = true /\ sport_type = "Run")
  /\ (forall v, props !! "Average Power" = Some v ->
     truthy (get activity_data "average_watts") = true
     /\ v = PNumber (get activity_data "average_watts")
     /\ sport_type = "Ride")
  /\ (sport_type = "Swim" -> forall v, props !! "Average Pace" = Some v ->
     exists q, as_num (get activity_data "average_speed") = Some q /\ (0 < q)%Q)
  /\ (sport_type = "Run" -> exists v,
     props !! "Average Pace" = Some (PNumber v)
     /\ (truthy (get activity_data "average_speed") = false -> v = VNum 0))
  /\ (sport_type = "Ride" -> exists v,
     props !! "Average Speed" = Some (PNumber v)
     /\ (truthy (get activity_data "average_speed") = false -> v = VNum 0)).
Proof.
  intros H. apply writes_record_properties in H.
  by apply activity_properties_sport_fields.
Qed.

Lemma create_activity_sport_fields_witness :
  writes_record (Mock.notion Mock.healthy) Mock.paced_run "Run" Mock.init
    (Mock.sent Mock.paced_run "Run")
  /\ truthy (get Mock.paced_run "average_heartrate") = true
  /\ PNumber (VNum 150) = PNumber (get Mock.paced_run "average_heartrate")
  /\ ("Run" = "Run" \/ "Run" = "Ride").
Proof.
  assert (H : writes_record (Mock.notion Mock.healthy) Mock.paced_run "Run" Mock.init
                (Mock.sent Mock.paced_run "Run")).
  { apply properties_written. vm_compute. reflexivity. }
  split; [exact H|].
  apply (proj1 (create_activity_sport_fields _ _ _ _ _ H) (PNumber (VNum 150))).
  vm_compute. reflexivity.
Defined.

(** A run without an average speed, and one whose average speed is zero,
    are both written with an Average Pace field. *)
Lemma create_activity_run_pace_always :
  Mock.morning_run !! "average_speed" = None
  /\ writes_record (Mock.notion Mock.healthy) Mock.morning_run "Run" Mock.init
       (Mock.sent Mock.morning_run "Run")
  /\ Mock.sent Mock.morning_run "Run" !! "Average Pace" = Some (PNumber (VNum 0))
  /\ Mock.still_run !! "average_speed" = Some (VNum 0)
  /\ writes_record (Mock.notion Mock.healthy) Mock.still_run "Run" Mock.init
       (Mock.sent Mock.still_run "Run")
  /\ Mock.sent Mock.still_run "Run" !! "Average Pace" = Some (PNumber (VNum 0)).
Proof.
  repeat split; try (apply properties_written); vm_compute; reflexivity.
Qed.

(** C2, as the code has it: the date field [create_activity] writes is the
    start timestamp unchanged, time of day included; the Planned-Activity
    Matcher queries with that timestamp cut at its first ['T'], a prefix of
    the stored date that equals it only when the timestamp has no ['T']. *)
Theorem create_activity_date {W} (self : NotionClient W)
    (activity_data : gmap string value) (sport_type : string) (s : state W)
    (props : gmap string prop_value) :
  writes_record self activity_data sport_type s props ->
  props !! "Date" = Some (PDate (get activity_data "start_date"))
  /\ forall stamp s', get activity_data "start_date" = VStr stamp ->
       calls (find_planned_activity self (get activity_data "start_date")
                sport_type s').1
         = (calls s' ++ [DatabasesQuery (planned_db_id self)
                          (planned_filter (split_T_head stamp) sport_type)])%list
       /\ (exists rest, stamp = split_T_head stamp ++ rest)
       /\ contains_T (split_T_head stamp) = false
       /\ (split_T_head stamp = stamp <-> contains_T stamp = false).
Proof.
  intros H. apply writes_record_properties in H.
  apply activity_properties_common in H as (_ & _ & _ & ->).
  split; [reflexivity|]. intros stamp s' ->.
  rewrite find_planned_activity_run, date_only_of_str.
  destruct (databases_query _ _ _ _) as [w r]. simpl.
  repeat split.
  - apply split_T_head_prefix.
  - apply split_T_head_no_T.
  - apply split_T_head_id.
  - apply split_T_head_id.
Qed.

Lemma create_activity_date_witness :
  writes_record (Mock.notion Mock.healthy) Mock.morning_run "Run" Mock.init
    (Mock.sent Mock.morning_run "Run")
  /\ Mock.sent Mock.morning_run "Run" !! "Date"
     = Some (PDate (get Mock.morning_run "start_date"))
  /\ calls (find_planned_activity (Mock.notion Mock.healthy)
              (get Mock.morning_run "start_date") "Run" Mock.init).1
     = [DatabasesQuery "planned"
          (planned_filter (split_T_head "2024-05-01T07:00:00Z") "Run")].
Proof.
  assert (H : writes_record (Mock.notion Mock.healthy) Mock.morning_run "Run" Mock.init
                (Mock.sent Mock.morning_run "Run")).
  { apply properties_written. vm_compute. reflexivity. }
  split; [exact H|].
  split; [exact (proj1 (create_activity_date _ _ _ _ _ H))|].
  exact (proj1 (proj2 (create_activity_date _ _ _ _ _ H)
                  "2024-05-01T07:00:00Z" Mock.init eq_refl)).
Defined.

(** The stored date keeps the time of day; the matcher asks for the day. *)
Lemma create_activity_date_keeps_time :
  writes_record (Mock.notion Mock.healthy) Mock.morning_run "Run" Mock.init
    (Mock.sent Mock.morning_run "Run")
  /\ Mock.sent Mock.morning_run "Run" !! "Date"
     = Some (PDate (VStr "2024-05-01T07:00:00Z"))
  /\ calls (find_planned_activity (Mock.notion Mock.healthy)
              (get Mock.morning_run "start_date") "Run" Mock.init).1
     = [DatabasesQuery "planned" (planned_filter "2024-05-01" "Run")].
Proof.
  repeat split; try (apply properties_written); vm_compute; reflexivity.
Qed.

(** ** Orchestrator *)

Section Orchestrator.
Context {W : Type} (self : NotionClient W).

(** [sync_activity], one store operation at a time. *)
Lemma sync_activity_unfold activity s :
  sync_activity self activity s =
    let sport_type := get_sport_type activity in
    match activity_exists self (get activity "id") s with
    | (s1, Raised _) => (s1, Ok false)
    | (s1, Ok true) => (s1, Ok true)
    | (s1, Ok false) =>
        if negb (supported sport_type) then (s1, Ok true) else
        match create_activity self activity sport_type s1 with
        | (s2, Raised _) => (s2, Ok false)
        | (s2, Ok activity_id) =>
            if negb (truthy activity_id) then (s2, Ok false) else
            match find_planned_activity self (get activity "start_date") sport_type s2 with
            | (s3, Raised _) => (s3, Ok false)
            | (s3, Ok planned_id) =>
                if truthy planned_id then
                  match link_to_planned_activity self activity_id planned_id s3 with
                  | (s4, Raised _) => (s4, Ok false)
                  | (s4, Ok false) => (s4, Ok true)
                  | (s4, Ok true) =>
                      match update_planned_status self planned_id "Done" s4 with
                      | (s5, Raised _) => (s5, Ok false)
                      | (s5, Ok _) => (s5, Ok true)
                      end
                  end
                else (s3, Ok true)
            end
        end
    end.
Proof.
  unfold sync_activity, catch, bind, ret. simpl.
  destruct (activity_exists _ _ _) as [s1 [[]|]]; try reflexivity.
  destruct (supported _); simpl; [|reflexivity].
  destruct (create_activity _ _ _ _) as [s2 [activity_id|]]; [|reflexivity].
  destruct (truthy activity_id); simpl; [|reflexivity].
  destruct (find_planned_activity _ _ _ _) as [s3 [planned_id|]]; [|reflexivity].
  destruct (truthy planned_id); simpl; [|reflexivity].
  destruct (link_to_planned_activity _ _ _ _) as [s4 [[]|]]; try reflexivity.
  destruct (update_planned_status _ _ _ _) as [s5 [?|]]; reflexivity.
Qed.

Lemma sync_outcomes_app before after s :
  sync_outcomes self (before ++ after) s
    = (sync_outcomes self before s
       ++ sync_outcomes self after (sync_final self before s))%list.
Proof.
  revert s. induction before as [|activity rest IH]; intros s; simpl; [done|].
  destruct (sync_activity_returns self activity s) as (s' & ok & E).
  rewrite E. simpl. by rewrite IH.
Qed.

Lemma sync_final_app before after s :
  sync_final self (before ++ after) s
    = sync_final self after (sync_final self before s).
Proof.
  revert s. induction before as [|activity rest IH]; intros s; simpl; [done|].
  apply IH.
Qed.

Lemma count_app b l1 l2 : count b (l1 ++ l2) = count b l1 + count b l2.
Proof. unfold count. by rewrite List.filter_app, length_app. Qed.

Lemma count_repeat_same b n : count b (repeat b n) = n.
Proof.
  unfold count. induction n as [|n IH]; simpl; [done|].
  destruct b; simpl; by rewrite IH.
Qed.

Lemma count_repeat_other b n : count (negb b) (repeat b n) = 0.
Proof.
  unfold count. induction n as [|n IH]; simpl; [done|].
  by destruct b.
Qed.

End Orchestrator.

(** C4: when the existence query raises, [activity_exists] raises the same
    error, [sync_activity] stops there with [False], the query is the only
    call made (no write reaches the store), and the loop counts the
    activity as failed. *)
Theorem sync_activity_exists_failure {W} (self : NotionClient W)
    (activity : gmap string value) (s : state W) (e : exn) :
  (databases_query (client self) (activities_db_id self)
     (exists_filter (get activity "id")) (world s)).2 = Raised e ->
  exists s1,
    activity_exists self (get activity "id") s = (s1, Raised e)
    /\ sync_activity self activity s = (s1, Ok false)
    /\ calls s1 = (calls s ++ [DatabasesQuery (activities_db_id self)
                                (exists_filter (get activity "id"))])%list
    /\ List.filter is_write (calls s1) = List.filter is_write (calls s)
    /\ forall rest success_count failure_count,
         sync_loop self (activity :: rest) success_count failure_count s
           = sync_loop self rest success_count (S failure_count) s1.
Proof.
  intros H.
  exists {| world := (databases_query (client self) (activities_db_id self)
                        (exists_filter (get activity "id")) (world s)).1;
            calls := calls s ++ [DatabasesQuery (activities_db_id self)
                                   (exists_filter (get activity "id"))] |}.
  assert (E : activity_exists self (get activity "id") s
              = ({| world := (databases_query (client self) (activities_db_id self)
                                (exists_filter (get activity "id")) (world s)).1;
                    calls := calls s ++ [DatabasesQuery (activities_db_id self)
                                           (exists_filter (get activity "id"))] |},
                 Raised e)).
  { rewrite activity_exists_run.
    destruct (databases_query _ _ _ _) as [w r]. simpl in H. subst r. reflexivity. }
  assert (E' : sync_activity self activity s
               = ((activity_exists self (get activity "id") s).1, Ok false)).
  { rewrite sync_activity_unfold. simpl. rewrite E. reflexivity. }
  rewrite E in E'. simpl in E'.
  split; [exact E|]. split; [exact E'|]. split; [reflexivity|]. split.
  - simpl. rewrite List.filter_app. simpl. apply app_nil_r.
  - intros rest sc fc. simpl. unfold bind at 1. rewrite E'. reflexivity.
Qed.

Lemma sync_activity_exists_failure_witness :
  (databases_query (client (Mock.notion Mock.unreachable)) "activities"
     (exists_filter (get Mock.morning_run "id")) tt).2
    = Raised (ClientError "timeout")
  /\ exists s1,
       activity_exists (Mock.notion Mock.unreachable) (get Mock.morning_run "id") Mock.init
         = (s1, Raised (ClientError "timeout"))
       /\ sync_activity (Mock.notion Mock.unreachable) Mock.morning_run Mock.init
          = (s1, Ok false)
       /\ calls s1 = [DatabasesQuery "activities" (exists_filter (get Mock.morning_run "id"))]
       /\ List.filter is_write (calls s1) = []
       /\ forall rest success_count failure_count,
            sync_loop (Mock.notion Mock.unreachable) (Mock.morning_run :: rest)
              success_count failure_count Mock.init
            = sync_loop (Mock.notion Mock.unreachable) rest
                success_count (S failure_count) s1.
Proof.
  split; [reflexivity|].
  exact (sync_activity_exists_failure (Mock.notion Mock.unreachable) Mock.morning_run
           Mock.init (ClientError "timeout") eq_refl).
Defined.

(** C7: [find_planned_activity] makes one query, for the day of the
    timestamp and the category; it returns the identifier of the first
    record of the result whatever follows it, [None] when the result is
    empty, and [None] as well when the query raises: it never raises. *)
Theorem find_planned_activity_first_match {W} (self : NotionClient W)
    (stamp sport_type : string) (s : state W) :
  let query := planned_filter (split_T_head stamp) sport_type in
  let answer := databases_query (client self) (planned_db_id self) query (world s) in
  let run := find_planned_activity self (VStr stamp) sport_type s in
  calls run.1 = (calls s ++ [DatabasesQuery (planned_db_id self) query])%list
  /\ (forall response first rest planned_id,
        answer.2 = Ok response ->
        results response = Some (first :: rest) ->
        first !! "id" = Some planned_id ->
        run.2 = Ok planned_id)
  /\ (forall response,
        answer.2 = Ok response -> default [] (results response) = [] ->
        run.2 = Ok VNone)
  /\ (forall e, answer.2 = Raised e -> run.2 = Ok VNone).
Proof.
  simpl. rewrite find_planned_activity_run, date_only_of_str.
  destruct (databases_query _ _ _ _) as [w r]. simpl.
  split; [reflexivity|]. split; [|split].
  - intros response first rest planned_id -> Hres Hid. by rewrite Hres; simpl; rewrite Hid.
  - intros response -> Hres. by rewrite Hres.
  - by intros e ->.
Qed.

Lemma find_planned_activity_first_match_witness :
  (find_planned_activity (Mock.notion Mock.healthy) (VStr "2024-05-01T07:00:00Z")
     "Run" Mock.init).2 = Ok (VStr "plan-1")
  /\ (find_planned_activity (Mock.notion Mock.no_plans) (VStr "2024-05-01T07:00:00Z")
        "Run" Mock.init).2 = Ok VNone.
Proof.
  split.
  - exact (proj1 (proj2 (find_planned_activity_first_match (Mock.notion Mock.healthy)
                           "2024-05-01T07:00:00Z" "Run" Mock.init))
             {| results := Some (Mock.page <$> ["plan-1"; "plan-2"]) |}
             (Mock.page "plan-1") [Mock.page "plan-2"] (VStr "plan-1")
             eq_refl eq_refl eq_refl).
  - exact (proj2 (proj2 (proj2 (find_planned_activity_first_match
                                  (Mock.notion Mock.no_plans)
                                  "2024-05-01T07:00:00Z" "Run" Mock.init)))
             (ClientError "timeout") eq_refl).
Defined.

(** C8, as the code has it: when the existence query finds a record, and
    when it completes and the category is Other, [sync_activity] returns
    [True] having made the existence query and nothing else: no create
    call is issued.  For a record of category Other no create call is
    issued in any case, but when its existence query raises the result is
    [False], since the query comes before the classification. *)
Theorem sync_activity_skips {W} (self : NotionClient W)
    (activity : gmap string value) (s : state W) :
  let query := exists_filter (get activity "id") in
  let answer := databases_query (client self) (activities_db_id self) query (world s) in
  let run := sync_activity self activity s in
  (forall response page rest,
     answer.2 = Ok response -> results response = Some (page :: rest) ->
     run.2 = Ok true
     /\ calls run.1 = (calls s ++ [DatabasesQuery (activities_db_id self) query])%list
     /\ List.filter is_create (calls run.1) = List.filter is_create (calls s))
  /\ (forall response,
     answer.2 = Ok response -> get_sport_type activity = "Other" ->
     run.2 = Ok true
     /\ calls run.1 = (calls s ++ [DatabasesQuery (activities_db_id self) query])%list
     /\ List.filter is_create (calls run.1) = List.filter is_create (calls s))
  /\ (get_sport_type activity = "Other" ->
     List.filter is_create (calls run.1) = List.filter is_create (calls s))
  /\ (forall e, answer.2 = Raised e -> run.2 = Ok false).
Proof.
  simpl. rewrite sync_activity_unfold. simpl. rewrite activity_exists_run.
  destruct (databases_query _ _ _ _) as [w r]. simpl.
  split; [|split; [|split]].
  4: { by intros e ->. }
  3: { intros Hother. rewrite Hother. simpl.
       destruct r as [response|e]; simpl;
         [destruct (0 <? length (default [] (results response)))%nat; simpl|];
         rewrite List.filter_app; simpl; apply app_nil_r. }
  - intros response page rest -> Hres. rewrite Hres. simpl.
    repeat split. rewrite List.filter_app. simpl. apply app_nil_r.
  - intros response -> Hother. rewrite Hother. simpl.
    destruct (0 <? length (default [] (results response)))%nat; simpl;
      (repeat split; rewrite List.filter_app; simpl; apply app_nil_r).
Qed.

Lemma sync_activity_skips_witness :
  (sync_activity (Mock.notion Mock.synced) Mock.morning_run Mock.init).2 = Ok true
  /\ (sync_activity (Mock.notion Mock.healthy) Mock.yoga Mock.init).2 = Ok true
  /\ calls (sync_activity (Mock.notion Mock.healthy) Mock.yoga Mock.init).1
     = [DatabasesQuery "activities" (exists_filter (get Mock.yoga "id"))].
Proof.
  split.
  - exact (proj1 (proj1 (sync_activity_skips (Mock.notion Mock.synced)
                           Mock.morning_run Mock.init)
                    {| results := Some (Mock.page <$> ["old-page"]) |}
                    (Mock.page "old-page") [] eq_refl eq_refl)).
  - pose proof (proj1 (proj2 (sync_activity_skips (Mock.notion Mock.healthy)
                                Mock.yoga Mock.init))
                  {| results := Some [] |} eq_refl eq_refl) as H.
    exact (conj (proj1 H) (proj1 (proj2 H))).
Defined.

(** A record of category Other whose existence query raises is counted as
    failed: [sync_activity] returns [False], with the query as its only
    call. *)
Lemma sync_activity_other_unreachable :
  get_sport_type Mock.yoga = "Other"
  /\ activity_exists (Mock.notion Mock.unreachable) (get Mock.yoga "id") Mock.init
     = ({| world := tt;
           calls := [DatabasesQuery "activities" (exists_filter (VNum 7))] |},
        Raised (ClientError "timeout"))
  /\ sync_activity (Mock.notion Mock.unreachable) Mock.yoga Mock.init
     = ({| world := tt;
           calls := [DatabasesQuery "activities" (exists_filter (VNum 7))] |},
        Ok false).
Proof. repeat split; vm_compute; reflexivity. Qed.

(** C6: once a record is created and a plan matched, the status update is
    attempted only after the relation was written: when the relation write
    raises, it is the last call made, and when it succeeds the status
    update follows, whose own outcome is ignored.  In both cases
    [sync_activity] returns [True]. *)
Theorem sync_activity_soft_link {W} (self : NotionClient W)
    (activity : gmap string value) (s s1 s2 s3 : state W)
    (activity_id planned_id : value) :
  activity_exists self (get activity "id") s = (s1, Ok false) ->
  supported (get_sport_type activity) = true ->
  create_activity self activity (get_sport_type activity) s1 = (s2, Ok activity_id) ->
  truthy activity_id = true ->
  find_planned_activity self (get activity "start_date") (get_sport_type activity) s2
    = (s3, Ok planned_id) ->
  truthy planned_id = true ->
  let link := PagesUpdate activity_id (relation_properties planned_id) in
  let status := PagesUpdate planned_id (status_properties "Done") in
  let linked := pages_update (client self) activity_id
                  (relation_properties planned_id) (world s3) in
  let run := sync_activity self activity s in
  run.2 = Ok true
  /\ (forall e, linked.2 = Raised e ->
        link_to_planned_activity self activity_id planned_id s3
          = ({| world := linked.1; calls := calls s3 ++ [link] |}, Ok false)
        /\ run.1 = {| world := linked.1; calls := calls s3 ++ [link] |}
        /\ List.filter is_status_update (calls run.1)
           = List.filter is_status_update (calls s3))
  /\ (forall page, linked.2 = Ok page ->
        let updated := pages_update (client self) planned_id
                         (status_properties "Done") linked.1 in
        link_to_planned_activity self activity_id planned_id s3
          = ({| world := linked.1; calls := calls s3 ++ [link] |}, Ok true)
        /\ run.1 = {| world := updated.1; calls := (calls s3 ++ [link]) ++ [status] |})
  /\ (forall s4, exists s5 ok,
        update_planned_status self planned_id "Done" s4 = (s5, Ok ok)).
Proof.
  intros Hexists Hsupported Hcreate Hid Hfind Hplanned. simpl.
  assert (Hupdate : forall s4, exists s5 ok,
            update_planned_status self planned_id "Done" s4 = (s5, Ok ok)).
  { intros s4. rewrite update_planned_status_run.
    destruct (pages_update _ _ _ _) as [w r]. eauto. }
  rewrite sync_activity_unfold. simpl.
  rewrite Hexists, Hsupported. simpl. rewrite Hcreate, Hid. simpl.
  rewrite Hfind, Hplanned.
  rewrite link_to_planned_activity_run.
  destruct (pages_update (client self) activity_id _ _) as [w [page|e]]; simpl.
  - rewrite update_planned_status_run.
    destruct (pages_update (client self) planned_id _ _) as [w' [page'|e']]; simpl;
      (split; [reflexivity|]; split; [intros ? [=] |];
       split; [intros ? _; split; reflexivity | exact Hupdate]).
  - split; [reflexivity|]. split.
    + intros ? _. split; [reflexivity|]. split; [reflexivity|].
      rewrite List.filter_app. simpl. unfold relation_properties.
      rewrite lookup_singleton_ne by discriminate. apply app_nil_r.
    + split; [intros ? [=] | exact Hupdate].
Qed.

Lemma sync_activity_soft_link_witness :
  (sync_activity (Mock.notion Mock.no_link) Mock.morning_run Mock.init).2 = Ok true
  /\ calls (sync_activity (Mock.notion Mock.no_link) Mock.morning_run Mock.init).1
     = [ DatabasesQuery "activities" (exists_filter (VNum 42));
         PagesCreate "activities" (Mock.sent Mock.morning_run "Run");
         DatabasesQuery "planned" (planned_filter "2024-05-01" "Run");
         PagesUpdate (VStr "new-page") (relation_properties (VStr "plan-1")) ].
Proof.
  set (nc := Mock.notion Mock.no_link).
  pose (s1 := (activity_exists nc (get Mock.morning_run "id") Mock.init).1).
  pose (s2 := (create_activity nc Mock.morning_run "Run" s1).1).
  pose (s3 := (find_planned_activity nc (get Mock.morning_run "start_date") "Run" s2).1).
  assert (H1 : activity_exists nc (get Mock.morning_run "id") Mock.init = (s1, Ok false))
    by (vm_compute; reflexivity).
  assert (H2 : supported (get_sport_type Mock.morning_run) = true)
    by (vm_compute; reflexivity).
  assert (H3 : create_activity nc Mock.morning_run (get_sport_type Mock.morning_run) s1
               = (s2, Ok (VStr "new-page")))
    by (vm_compute; reflexivity).
  assert (H4 : truthy (VStr "new-page") = true) by reflexivity.
  assert (H5 : find_planned_activity nc (get Mock.morning_run "start_date")
                 (get_sport_type Mock.morning_run) s2 = (s3, Ok (VStr "plan-1")))
    by (vm_compute; reflexivity).
  assert (H6 : truthy (VStr "plan-1") = true) by reflexivity.
  destruct (sync_activity_soft_link nc Mock.morning_run Mock.init s1 s2 s3
              (VStr "new-page") (VStr "plan-1") H1 H2 H3 H4 H5 H6)
    as (Hrun & Hfail & _).
  split; [exact Hrun|].
  destruct (Hfail (ClientError "no such property") eq_refl) as (_ & -> & _).
  vm_compute. reflexivity.
Defined.

(** A creation that yields no identifier makes [sync_activity] return
    [False], with nothing attempted after it. *)
Lemma sync_activity_creation_failure {W} (self : NotionClient W)
    (activity : gmap string value) (s s1 s2 : state W) (activity_id : value) :
  activity_exists self (get activity "id") s = (s1, Ok false) ->
  supported (get_sport_type activity) = true ->
  create_activity self activity (get_sport_type activity) s1 = (s2, Ok activity_id) ->
  truthy activity_id = false ->
  sync_activity self activity s = (s2, Ok false).
Proof.
  intros Hexists Hsupported Hcreate Hid.
  rewrite sync_activity_unfold. simpl.
  by rewrite Hexists, Hsupported; simpl; rewrite Hcreate, Hid.
Qed.

(** C5: in a batch where one activity fails and the others succeed, the
    loop goes on after the failure through every remaining activity and
    ends with N-1 successes and 1 failure. *)
Theorem sync_loop_one_failure {W} (self : NotionClient W)
    (before after : list (gmap string value)) (failing : gmap string value)
    (s s1 : state W) :
  sync_outcomes self before s = repeat true (length before) ->
  sync_activity self failing (sync_final self before s) = (s1, Ok false) ->
  sync_outcomes self after s1 = repeat true (length after) ->
  sync_loop self (before ++ failing :: after) 0 0 s
    = (sync_final self after s1, Ok (length before + length after, 1))
  /\ sync_outcomes self (before ++ failing :: after) s
     = (repeat true (length before) ++ false :: repeat true (length after))%list
  /\ main_batch self (before ++ failing :: after) s
     = (sync_final self after s1, Ok (Some (length before + length after, 1))).
Proof.
  intros Hbefore Hfailing Hafter.
  assert (Hout : sync_outcomes self (before ++ failing :: after) s
                 = (repeat true (length before)
                    ++ false :: repeat true (length after))%list).
  { rewrite sync_outcomes_app, Hbefore. simpl. by rewrite Hfailing, Hafter. }
  assert (Hfinal : sync_final self (before ++ failing :: after) s
                   = sync_final self after s1).
  { rewrite sync_final_app. simpl. by rewrite Hfailing. }
  assert (Hloop : sync_loop self (before ++ failing :: after) 0 0 s
                  = (sync_final self after s1,
                     Ok (length before + length after, 1))).
  { rewrite sync_loop_run, Hout, Hfinal. do 3 f_equal.
    - rewrite count_app. change (false :: ?l) with ([false] ++ l)%list.
      rewrite count_app, !count_repeat_same. reflexivity.
    - rewrite count_app. change (false :: ?l) with ([false] ++ l)%list.
      rewrite count_app.
      rewrite !(count_repeat_other true). reflexivity. }
  split; [exact Hloop|]. split; [exact Hout|].
  unfold main_batch.
  destruct (before ++ failing :: after)%list eqn:E.
  - by destruct before.
  - unfold bind. by rewrite Hloop.
Qed.

Lemma sync_loop_one_failure_witness :
  (sync_loop (Mock.notion Mock.rejects_2) Mock.batch 0 0 Mock.init).2 = Ok (2, 1).
Proof.
  set (nc := Mock.notion Mock.rejects_2).
  pose (monday := Mock.activity 1 "Monday" "Run" "2024-05-06T07:00:00Z").
  pose (tuesday := Mock.activity 2 "Tuesday" "Ride" "2024-05-07T07:00:00Z").
  pose (wednesday := Mock.activity 3 "Wednesday" "Swim" "2024-05-08T07:00:00Z").
  pose (s1 := (sync_activity nc tuesday (sync_final nc [monday] Mock.init)).1).
  assert (H1 : sync_outcomes nc [monday] Mock.init = repeat true (length [monday]))
    by (vm_compute; reflexivity).
  assert (H2 : sync_activity nc tuesday (sync_final nc [monday] Mock.init)
               = (s1, Ok false))
    by (vm_compute; reflexivity).
  assert (H3 : sync_outcomes nc [wednesday] s1 = repeat true (length [wednesday]))
    by (vm_compute; reflexivity).
  pose proof (proj1 (sync_loop_one_failure nc [monday] [wednesday] tuesday
                       Mock.init s1 H1 H2 H3)) as H.
  exact (f_equal snd H).
Defined.

(** C10: [sync_activity] returns a boolean in every state, each turn of the
    loop adds one to exactly one of the two counters, and the final counts
    add up to the size of the batch. *)
Theorem sync_loop_partition {W} (self : NotionClient W)
    (activities : list (gmap string value)) (s : state W) :
  (forall activity s0, exists s' ok, sync_activity self activity s0 = (s', Ok ok))
  /\ (forall activity rest success_count failure_count s0,
        exists s' ok,
          sync_activity self activity s0 = (s', Ok ok)
          /\ sync_loop self (activity :: rest) success_count failure_count s0
             = sync_loop self rest
                 (if ok then S success_count else success_count)
                 (if ok then failure_count else S failure_count) s')
  /\ (exists s' success_count failure_count,
        sync_loop self activities 0 0 s = (s', Ok (success_count, failure_count))
        /\ success_count = count true (sync_outcomes self activities s)
        /\ failure_count = count false (sync_outcomes self activities s)
        /\ length (sync_outcomes self activities s) = length activities
        /\ success_count + failure_count = length activities)
  /\ (activities <> [] ->
      exists s' success_count failure_count,
        main_batch self activities s = (s', Ok (Some (success_count, failure_count)))
        /\ success_count + failure_count = length activities).
Proof.
  assert (Hsum : count true (sync_outcomes self activities s)
                 + count false (sync_outcomes self activities s) = length activities).
  { by rewrite count_partition, sync_outcomes_length. }
  split; [apply sync_activity_returns|]. split; [|split].
  - intros activity rest sc fc s0.
    destruct (sync_activity_returns self activity s0) as (s' & ok & E).
    exists s', ok. split; [exact E|].
    simpl. unfold bind at 1. rewrite E. by destruct ok.
  - eexists _, _, _. rewrite sync_loop_run. simpl.
    split; [reflexivity|]. split; [reflexivity|]. split; [reflexivity|].
    split; [apply sync_outcomes_length | exact Hsum].
  - intros Hne. destruct activities as [|activity rest]; [done|].
    unfold main_batch, bind. rewrite sync_loop_run. simpl.
    eexists _, _, _. split; [reflexivity|]. exact Hsum.
Qed.

Lemma sync_loop_partition_witness :
  exists s' success_count failure_count,
    main_batch (Mock.notion Mock.rejects_2) Mock.batch Mock.init
      = (s', Ok (Some (success_count, failure_count)))
    /\ success_count + failure_count = length Mock.batch.
Proof.
  apply (proj2 (proj2 (proj2 (sync_loop_partition (Mock.notion Mock.rejects_2)
                                Mock.batch Mock.init)))).
  discriminate.
Defined.

(** * Further properties of the code *)

(** ** [create_activity] beyond the sport fields *)




Lemma activity_properties_not_sendable activity_data sport_type :
  sendable activity_data sport_type = false ->
  exists e, activity_properties activity_data sport_type = Raised e.
Proof.
  unfold sendable, activity_properties, py_div, numeric.
  destruct (as_num (get_or activity_data "distance" _)) as [d|]; simpl; [|eauto].
  destruct (as_num (get_or activity_data "moving_time" _)) as [m|]; simpl; [|eauto].
  unfold sport_properties.
  destruct (sport_type =? "Run") eqn:Erun.
  { apply String.eqb_eq in Erun as ->. simpl.
    destruct (truthy (get activity_data "average_speed")) eqn:Et; simpl; [|discriminate].
    destruct (as_num (get activity_data "average_speed")) as [q|] eqn:Eq; [discriminate|].
    intros _. unfold py_mul_float.
    assert (Hq : as_num (get_or activity_data "average_speed" (VNum 0)) = None).
    { unfold get, get_or in *.
      by destruct (activity_data !! "average_speed"). }
    rewrite Hq. simpl. eauto. }
  destruct (sport_type =? "Ride") eqn:Eride.
  { apply String.eqb_eq in Eride as ->. simpl.
    destruct (truthy (get activity_data "average_speed")) eqn:Et; simpl; [|discriminate].
    destruct (as_num (get activity_data "average_speed")) as [q|] eqn:Eq; [discriminate|].
    intros _. unfold py_mul_float.
    assert (Hq : as_num (get_or activity_data "average_speed" (VNum 0)) = None).
    { unfold get, get_or in *.
      by destruct (activity_data !! "average_speed"). }
    rewrite Hq. simpl. eauto. }
  destruct (sport_type =? "Swim") eqn:Eswim; simpl.
  - unfold py_gt_0.
    destruct (as_num (get_or activity_data "average_speed" _)); [discriminate|].
    simpl. eauto.
  - discriminate.
Qed.


Lemma sport_properties_keys activity_data sport_type props props' k :
  sport_properties activity_data sport_type props = Ok props' ->
  (is_Some (props !! k) -> is_Some (props' !! k))
  /\ (is_Some (props' !! k) -> is_Some (props !! k) \/ k ∈ sport_keys).
Proof.
  intros H.
  destruct (decide (k ∈ sport_keys)) as [Hk|Hk].
  - split; [|by right]. intros Hin.
    unfold sport_properties in H. split_result; repeat case_match;
      repeat (rewrite lookup_insert; case_decide; [by eexists|]); done.
  - rewrite (sport_properties_frame _ _ _ _ _ H Hk). split; [done | by left].
Qed.

(** X2: every record [create_activity] sends has the seven common keys,
    and no key besides those and the five sport keys; the Strava ID, the
    category and the elevation gain (0 when absent) are written as they
    came. *)
Theorem create_activity_keys {W} (self : NotionClient W)
    (activity_data : gmap string value) (sport_type : string) (s : state W)
    (props : gmap string prop_value) :
  writes_record self activity_data sport_type s props ->
  (forall k, k ∈ common_keys -> is_Some (props !! k))
  /\ (forall k, is_Some (props !! k) -> k ∈ common_keys \/ k ∈ sport_keys)
  /\ props !! "Strava ID" = Some (PNumber (get activity_data "id"))
  /\ props !! "Type" = Some (PSelect sport_type)
  /\ props !! "Elevation"
     = Some (PNumber (match activity_data !! "total_elevation_gain" with
                      | Some gain => gain
                      | None => VNum 0
                      end)).
Proof.
  intros H. apply writes_record_properties in H.
  pose proof (activity_properties_common _ _ _ H) as (_ & Hid & Htype & _).
  unfold activity_properties in H.
  destruct (py_div (get_or activity_data "distance" _) _) as [distance|]; [|discriminate].
  destruct (py_div (get_or activity_data "moving_time" _) _) as [duration|]; [|discriminate].
  simpl in H.
  split; [|split; [|split; [exact Hid | split; [exact Htype|]]]].
  - intros k Hk. apply (sport_properties_keys _ _ _ _ k H).
    unfold common_keys in Hk.
    repeat (apply elem_of_cons in Hk as [->|Hk]; [map_lookup; by eexists|]).
    by apply elem_of_nil in Hk.
  - intros k Hk. apply (sport_properties_keys _ _ _ _ k H) in Hk as [Hk|Hk]; [|by right].
    left. unfold common_keys.
    repeat (rewrite lookup_insert in Hk; case_decide;
            [subst; repeat first [apply list_elem_of_here | apply list_elem_of_further]|]).
    rewrite lookup_empty in Hk. by destruct Hk.
  - erewrite sport_properties_frame; [| exact H | not_sport_key].
    map_lookup. unfold get_or. by destruct (activity_data !! "total_elevation_gain").
Qed.

(** ** [sync_activity], case by case *)

(** X3: when the record was not there, its category is supported and the
    store refuses the creation, answers without an identifier or with an
    empty one, [sync_activity] returns [False] and the create call is its
    last: no plan is looked up and nothing is linked. *)
Theorem sync_activity_create_refused {W} (self : NotionClient W)
    (activity : gmap string value) (s s1 : state W)
    (props : gmap string prop_value) :
  activity_exists self (get activity "id") s = (s1, Ok false) ->
  supported (get_sport_type activity) = true ->
  activity_properties activity (get_sport_type activity) = Ok props ->
  let answer := pages_create (client self) (activities_db_id self) props (world s1) in
  let after_create :=
    {| world := answer.1;
       calls := calls s1 ++ [PagesCreate (activities_db_id self) props] |} in
  (forall e, answer.2 = Raised e ->
     sync_activity self activity s = (after_create, Ok false))
  /\ (forall page, answer.2 = Ok page -> page !! "id" = None ->
     sync_activity self activity s = (after_create, Ok false))
  /\ (forall page id, answer.2 = Ok page -> page !! "id" = Some id ->
     truthy id = false ->
     sync_activity self activity s = (after_create, Ok false)).
Proof.
  intros Hexists Hsupported Hprops. simpl.
  rewrite sync_activity_unfold. simpl. rewrite Hexists, Hsupported. simpl.
  rewrite create_activity_run, Hprops.
  destruct (pages_create _ _ _ _) as [w r]. simpl.
  split; [|split].
  - by intros e ->.
  - intros page -> Hid. by rewrite Hid.
  - intros page id -> Hid Hfalsy. rewrite Hid. simpl. by rewrite Hfalsy.
Qed.

(** X4: a record of a supported category that cannot be sent (see X1) is
    counted as failed, with the existence query as the only call made. *)
Theorem sync_activity_unsendable {W} (self : NotionClient W)
    (activity : gmap string value) (s s1 : state W) :
  activity_exists self (get activity "id") s = (s1, Ok false) ->
  supported (get_sport_type activity) = true ->
  sendable activity (get_sport_type activity) = false ->
  sync_activity self activity s = (s1, Ok false)
  /\ calls s1 = (calls s ++ [DatabasesQuery (activities_db_id self)
                              (exists_filter (get activity "id"))])%list.
Proof.
  intros Hexists Hsupported Hsend.
  rewrite sync_activity_unfold. simpl. rewrite Hexists, Hsupported. simpl.
  apply activity_properties_not_sendable in Hsend as [e Hsend].
  rewrite create_activity_run, Hsend. simpl.
  split; [reflexivity|].
  rewrite activity_exists_run in Hexists.
  destruct (databases_query _ _ _ _) as [w r]. by injection Hexists as <- _.
Qed.

(** X5: [sync_activity] returns [False] in two cases only: the existence
    query raised, or the record was not there, its category is supported
    and [create_activity] came back without a usable identifier. *)
Theorem sync_activity_false_iff {W} (self : NotionClient W)
    (activity : gmap string value) (s : state W) :
  let checked := activity_exists self (get activity "id") s in
  let created := create_activity self activity (get_sport_type activity) checked.1 in
  (sync_activity self activity s).2 = Ok false
  <-> (exists e, checked.2 = Raised e)
      \/ (checked.2 = Ok false
          /\ supported (get_sport_type activity) = true
          /\ exists activity_id, created.2 = Ok activity_id /\ truthy activity_id = false).
Proof.
  simpl. rewrite sync_activity_unfold. simpl.
  destruct (activity_exists _ _ _) as [s1 [[]|e]]; simpl.
  - split; [discriminate|]. intros [[? [=]]|([=] & _)].
  - destruct (supported _); simpl.
    + rewrite create_activity_run.
      destruct (activity_properties _ _) as [props|e]; simpl.
      * destruct (pages_create _ _ _ _) as [w r]; simpl.
        set (activity_id := match r with
                            | Ok response => default VNone (response !! "id")
                            | Raised _ => VNone
                            end).
        destruct (truthy activity_id) eqn:Hid; simpl.
        -- rewrite find_planned_activity_run.
           destruct (date_only_of _) as [date_only|]; simpl.
           ++ destruct (databases_query _ _ _ _) as [w' r']; simpl.
              match goal with |- context [truthy ?v] => destruct (truthy v) end.
              ** rewrite link_to_planned_activity_run.
                 destruct (pages_update _ _ _ _) as [w2 [page|e2]]; simpl.
                 --- rewrite update_planned_status_run.
                     destruct (pages_update _ _ _ _) as [w3 r3]; simpl.
                     split; [discriminate|].
                     intros [[? [=]]|(_ & _ & id & [= <-] & Hf)]. congruence.
                 --- split; [discriminate|].
                     intros [[? [=]]|(_ & _ & id & [= <-] & Hf)]. congruence.
              ** split; [discriminate|].
                 intros [[? [=]]|(_ & _ & id & [= <-] & Hf)]. congruence.
           ++ split; [discriminate|].
              intros [[? [=]]|(_ & _ & id & [= <-] & Hf)]. congruence.
        -- split; [|done]. intros _. right. eauto.
      * split; [|done]. intros _. right. repeat split. by exists VNone.
    + split; [discriminate|]. intros [[? [=]]|(_ & [=] & _)].
  - split; [|done]. intros _. left. eauto.
Qed.

(** ** The order of the calls *)

Lemma call_step_link activity_id planned_id :
  call_step (PagesUpdate activity_id (relation_properties planned_id)) = SLink.
Proof.
  unfold call_step, relation_properties.
  by rewrite lookup_singleton_ne by discriminate.
Qed.

Lemma call_step_status planned_id status :
  call_step (PagesUpdate planned_id (status_properties status)) = SStatus.
Proof. unfold call_step, status_properties. by rewrite lookup_singleton_eq. Qed.

(** What one run of [sync_activity] adds to the trace: the existence query,
    then some first steps of create, match, link, status-update. *)
Lemma sync_activity_trace {W} (self : NotionClient W)
    (activity : gmap string value) (s : state W) :
  exists rest n,
    calls (sync_activity self activity s).1
      = (calls s ++ DatabasesQuery (activities_db_id self)
                      (exists_filter (get activity "id")) :: rest)%list
    /\ call_step <$> rest = take n [SCreate; SMatch; SLink; SStatus].
Proof.
  rewrite sync_activity_unfold. simpl. rewrite activity_exists_run.
  destruct (databases_query _ _ _ _) as [w [response|e]]; simpl.
  2: { exists [], 0. by split. }
  destruct (0 <? length _)%nat; simpl.
  { exists [], 0. by split. }
  destruct (supported _); simpl.
  2: { exists [], 0. by split. }
  rewrite create_activity_run.
  destruct (activity_properties _ _) as [props|e]; simpl.
  2: { exists [], 0. by split. }
  destruct (pages_create _ _ _ _) as [w1 r1]; simpl.
  match goal with |- context [truthy ?v] => destruct (truthy v) end; simpl.
  2: { eexists [_], 1. rewrite <- !app_assoc. by split. }
  rewrite find_planned_activity_run.
  destruct (date_only_of _) as [date_only|e]; simpl.
  2: { eexists [_], 1. rewrite <- !app_assoc. by split. }
  destruct (databases_query _ _ _ _) as [w2 r2]; simpl.
  match goal with |- context [truthy ?v] => destruct (truthy v) end; simpl.
  2: { eexists [_; _], 2. rewrite <- !app_assoc. by split. }
  rewrite link_to_planned_activity_run.
  destruct (pages_update _ _ _ _) as [w3 [page|e]]; simpl.
  2: { eexists [_; _; _], 3. rewrite <- !app_assoc. split; [reflexivity|].
       rewrite !fmap_cons, call_step_link. reflexivity. }
  rewrite update_planned_status_run.
  destruct (pages_update _ _ _ _) as [w4 r4]; simpl.
  eexists [_; _; _; _], 4. rewrite <- !app_assoc. split; [reflexivity|].
  rewrite !fmap_cons, call_step_link, call_step_status. reflexivity.
Qed.

Lemma later_steps_no_exists (rest : list call) n :
  call_step <$> rest = take n [SCreate; SMatch; SLink; SStatus] ->
  List.filter is_exists_query rest = [].
Proof.
  intros H.
  destruct n as [|[|[|[|n]]]];
    destruct rest as [|c1 [|c2 [|c3 [|c4 [|c5 rest]]]]];
    try discriminate H; try reflexivity;
    rewrite ?fmap_cons in H; simpl in H;
    repeat match goal with
      | H : _ :: _ = _ :: _ |- _ =>
          injection H; clear H; intros
      end;
    try match goal with
      | H : _ :: _ = take _ [] |- _ => rewrite take_nil in H; discriminate H
      end;
    unfold List.filter, is_exists_query;
    repeat match goal with
      | E : call_step _ = _ |- _ => rewrite E; clear E
      end;
    reflexivity.
Qed.

(** X6: the calls of one [sync_activity] follow the order existence query,
    create, planned-activity query, relation write, status update, and are
    a non-empty initial part of it: no step is made unless all the steps
    before it were, and none is made twice. *)
Theorem sync_activity_protocol {W} (self : NotionClient W)
    (activity : gmap string value) (s : state W) :
  exists new n,
    calls (sync_activity self activity s).1 = (calls s ++ new)%list
    /\ 1 <= n <= 5
    /\ call_step <$> new = take n protocol
    /\ head new = Some (DatabasesQuery (activities_db_id self)
                          (exists_filter (get activity "id"))).
Proof.
  destruct (sync_activity_trace self activity s) as (rest & n & Hcalls & Hsteps).
  eexists (_ :: rest), (S (n `min` 4)).
  split; [exact Hcalls|]. split; [lia|]. split; [|reflexivity].
  rewrite fmap_cons, Hsteps.
  destruct n as [|[|[|[|n]]]]; try reflexivity.
  replace (S (S (S (S n))) `min` 4) with 4 by lia.
  simpl. by rewrite take_nil.
Qed.

(** X7: a batch asks the existence query once for every activity, in the
    order of the batch, whatever happens to the activities before: none is
    skipped and none is taken up twice. *)
Theorem sync_final_exists_queries {W} (self : NotionClient W)
    (activities : list (gmap string value)) (s : state W) :
  List.filter is_exists_query (calls (sync_final self activities s))
    = (List.filter is_exists_query (calls s)
       ++ map (fun activity =>
                 DatabasesQuery (activities_db_id self)
                   (exists_filter (get activity "id"))) activities)%list.
Proof.
  revert s. induction activities as [|activity rest IH]; intros s; simpl.
  - by rewrite app_nil_r.
  - rewrite IH.
    destruct (sync_activity_trace self activity s) as (new & n & -> & Hsteps).
    rewrite List.filter_app. simpl.
    rewrite (later_steps_no_exists _ _ Hsteps).
    by rewrite <- app_assoc.
Qed.

(** ** Dates and categories *)

Lemma split_T_head_app date time :
  contains_T date = false -> split_T_head (date ++ "T" ++ time) = date.
Proof.
  induction date as [|c r IH]; [done|].
  cbn [contains_T]. destruct (Ascii.eqb c "T") eqn:E; [discriminate|].
  intros H. change (String c r ++ "T" ++ time) with (String c (r ++ "T" ++ time)).
  cbn [split_T_head]. rewrite E. by rewrite IH.
Qed.

(** X8: for a timestamp made of a day without ['T'], a ['T'] and anything
    after it, the Planned-Activity Matcher queries for the day alone: it
    does exactly what it does when handed the day. *)
Theorem find_planned_activity_ignores_time {W} (self : NotionClient W)
    (date time sport_type : string) (s : state W) :
  contains_T date = false ->
  date_only_of (VStr (date ++ "T" ++ time)) = Ok date
  /\ find_planned_activity self (VStr (date ++ "T" ++ time)) sport_type s
     = find_planned_activity self (VStr date) sport_type s.
Proof.
  intros H.
  assert (E1 : date_only_of (VStr (date ++ "T" ++ time)) = Ok date).
  { by rewrite date_only_of_str, split_T_head_app. }
  assert (E2 : date_only_of (VStr date) = Ok date).
  { rewrite date_only_of_str. f_equal. by apply split_T_head_id. }
  split; [exact E1|].
  by rewrite !find_planned_activity_run, E1, E2.
Qed.


(** X10: [get_sport_type] only ever returns Run, Ride, Swim or Other, and
    the orchestrator's test "not in Run, Ride, Swim" holds exactly of
    Other. *)
Theorem get_sport_type_range (activity : gmap string value) :
  get_sport_type activity ∈ ["Run"; "Ride"; "Swim"; "Other"]
  /\ (supported (get_sport_type activity) = false
      <-> get_sport_type activity = "Other").
Proof.
  rewrite get_sport_type_label.
  assert (H : sport_type_map_get (looked_up_label activity)
              ∈ ["Run"; "Ride"; "Swim"; "Other"]).
  { destruct (looked_up_label activity) as [| | |label]; simpl;
      try (do 3 apply list_elem_of_further; apply list_elem_of_here).
    destruct (SPORT_TYPE_MAP !! label) as [category|] eqn:E; simpl.
    - apply elem_of_list_to_map_2 in E. unfold SPORT_TYPE_MAP_entries in E.
      repeat (apply elem_of_cons in E as [[= -> ->]|E];
              [repeat first [apply list_elem_of_here | apply list_elem_of_further]|]).
      by apply elem_of_nil in E.
    - do 3 apply list_elem_of_further. apply list_elem_of_here. }
  split; [exact H|].
  repeat (apply elem_of_cons in H as [->|H]; [by split|]).
  by apply elem_of_nil in H.
Qed.

(** ** The Strava client *)

Section StravaProperties.
Context {H : Type} (requests : Requests H) (self : StravaClient).

Lemma get_access_token_calls st :
  http_calls (get_access_token requests self st).1
    = (http_calls st ++ [HttpPost TOKEN_URL (token_payload self)])%list.
Proof.
  unfold get_access_token. destruct (requests_post _ _ _ _) as [h r].
  by destruct (rbind r _).
Qed.

Lemma get_access_token_failure st e :
  (get_access_token requests self st).2 = Raised e ->
  access_token (get_access_token requests self st).1 = access_token st.
Proof.
  unfold get_access_token. destruct (requests_post _ _ _ _) as [h r].
  by destruct (rbind r _).
Qed.

Lemma get_access_token_success st token :
  (get_access_token requests self st).2 = Ok token ->
  access_token (get_access_token requests self st).1 = token.
Proof.
  unfold get_access_token. destruct (requests_post _ _ _ _) as [h r].
  destruct (rbind r _); simpl; congruence.
Qed.

Lemma get_activities_cached_calls after per_page st :
  truthy (access_token st) = true ->
  http_calls (get_activities requests self after per_page st).1
    = (http_calls st
       ++ [HttpGet activities_url (access_token st) (activity_params after per_page)])%list
  /\ access_token (get_activities requests self after per_page st).1 = access_token st.
Proof.
  intros Htoken. unfold get_activities. rewrite Htoken. simpl.
  by destruct (requests_get _ _ _ _ _) as [h r].
Qed.

End StravaProperties.

(** X11: [get_access_token] makes one POST to the token endpoint carrying
    the client id, the client secret, the refresh token and the grant type
    [refresh_token].  When it returns, the token it returns is the
    [access_token] of a response that passed [raise_for_status], and is
    the token now cached; when it raises, the cached token is what it
    was. *)
Theorem get_access_token_result {H} (requests : Requests H) (self : StravaClient)
    (st : strava_state H) :
  let answer := requests_post requests TOKEN_URL (token_payload self) (http st) in
  let run := get_access_token requests self st in
  http_calls run.1 = (http_calls st ++ [HttpPost TOKEN_URL (token_payload self)])%list
  /\ token_payload self !! "client_id" = Some (client_id self)
  /\ token_payload self !! "client_secret" = Some (client_secret self)
  /\ token_payload self !! "refresh_token" = Some (refresh_token self)
  /\ token_payload self !! "grant_type" = Some "refresh_token"
  /\ (forall token, run.2 = Ok token ->
        access_token run.1 = token
        /\ exists response token_data,
             answer.2 = Ok response
             /\ raise_for_status response = Ok tt
             /\ json response = Ok token_data
             /\ token_data !! "access_token" = Some token)
  /\ (forall e, run.2 = Raised e -> access_token run.1 = access_token st).
Proof.
  simpl. split; [apply get_access_token_calls|].
  unfold token_payload.
  do 4 (split; [by map_lookup|]).
  split.
  - intros token Hrun. split; [by apply get_access_token_success|].
    unfold get_access_token in Hrun.
    destruct (requests_post _ _ _ _) as [h [response|e]]; simpl in *; [|discriminate].
    destruct (raise_for_status response) as [[]|e] eqn:Es; simpl in Hrun; [|discriminate].
    destruct (json response) as [token_data|e] eqn:Ej; simpl in Hrun; [|discriminate].
    unfold subscript in Hrun.
    destruct (token_data !! "access_token") as [t|] eqn:Et; simpl in Hrun; [|discriminate].
    injection Hrun as ->. eauto 10.
  - apply get_access_token_failure.
Qed.

(** X12: with a token cached, [get_activities] makes one call, the GET of
    the activities with that token as bearer, and no token request; the
    [after] parameter is sent unless it is [None] or 0; the list of the
    response is returned as it is, every error is raised to the caller,
    and the token stays cached either way. *)
Theorem get_activities_cached {H} (requests : Requests H) (self : StravaClient)
    (after : option Z) (per_page : Z) (st : strava_state H) :
  truthy (access_token st) = true ->
  let sent := activity_params after per_page in
  let answer := requests_get requests activities_url (access_token st) sent (http st) in
  let run := get_activities requests self after per_page st in
  http_calls run.1
    = (http_calls st ++ [HttpGet activities_url (access_token st) sent])%list
  /\ access_token run.1 = access_token st
  /\ (after = None \/ after = Some 0%Z ->
      sent = {| per_page := per_page; after := None |})
  /\ (forall a, after = Some a -> a <> 0%Z ->
      sent = {| per_page := per_page; after := Some a |})
  /\ (forall e, answer.2 = Raised e -> run.2 = Raised e)
  /\ (forall response e, answer.2 = Ok response ->
        raise_for_status response = Raised e -> run.2 = Raised e)
  /\ (forall response, answer.2 = Ok response ->
        raise_for_status response = Ok tt -> run.2 = json response).
Proof.
  intros Htoken. simpl. unfold get_activities. rewrite Htoken. simpl.
  destruct (requests_get _ _ _ _ _) as [h r]. simpl.
  split; [reflexivity|]. split; [reflexivity|].
  split; [|split; [|split; [|split]]].
  - by intros [->| ->].
  - intros a -> Ha. unfold activity_params. by destruct (Z.eqb_spec a 0).
  - by intros e ->.
  - intros response e -> Hs. simpl. by rewrite Hs.
  - intros response -> Hs. simpl. by rewrite Hs.
Qed.

(** X13: without a usable token, [get_activities] first asks for one; if
    that fails, the error is raised to the caller, the token request is
    the only call made (the activities are never asked for) and no token
    is cached. *)
Theorem get_activities_refresh_fails {H} (requests : Requests H) (self : StravaClient)
    (after : option Z) (per_page : Z) (st : strava_state H) (e : exn) :
  truthy (access_token st) = false ->
  (get_access_token requests self st).2 = Raised e ->
  let run := get_activities requests self after per_page st in
  run.2 = Raised e
  /\ http_calls run.1 = (http_calls st ++ [HttpPost TOKEN_URL (token_payload self)])%list
  /\ access_token run.1 = access_token st.
Proof.
  intros Htoken Hfail. simpl.
  pose proof (get_access_token_calls requests self st) as Hcalls.
  pose proof (get_access_token_failure requests self st e Hfail) as Hkeep.
  unfold get_activities. rewrite Htoken. simpl.
  destruct (get_access_token requests self st) as [st1 r]. simpl in *. subst r.
  by repeat split.
Qed.

(** X14: the token is asked for once.  When a first [get_activities],
    started without a token, leaves a usable token behind, a second one
    adds a single call, the GET with that same token, whether or not the
    first GET succeeded. *)
Theorem get_activities_twice {H} (requests : Requests H) (self : StravaClient)
    (after1 after2 : option Z) (per_page1 per_page2 : Z) (st : strava_state H) :
  truthy (access_token st) = false ->
  let first := get_activities requests self after1 per_page1 st in
  truthy (access_token first.1) = true ->
  let second := get_activities requests self after2 per_page2 first.1 in
  http_calls second.1
    = (http_calls st
       ++ [ HttpPost TOKEN_URL (token_payload self);
            HttpGet activities_url (access_token first.1)
              (activity_params after1 per_page1);
            HttpGet activities_url (access_token first.1)
              (activity_params after2 per_page2) ])%list
  /\ access_token second.1 = access_token first.1.
Proof.
  intros Hnone. simpl. intros Hsome.
  assert (Hfirst : http_calls (get_activities requests self after1 per_page1 st).1
                   = (http_calls st
                      ++ [ HttpPost TOKEN_URL (token_payload self);
                           HttpGet activities_url
                             (access_token
                                (get_activities requests self after1 per_page1 st).1)
                             (activity_params after1 per_page1) ])%list).
  { revert Hsome. unfold get_activities. rewrite Hnone. simpl.
    pose proof (get_access_token_calls requests self st) as Hcalls.
    destruct (get_access_token requests self st) as [st1 [token|e]] eqn:E; simpl in *.
    - destruct (requests_get _ _ _ _ _) as [h r]. simpl. intros _.
      rewrite Hcalls, <- app_assoc. reflexivity.
    - pose proof (get_access_token_failure requests self st e) as Hkeep.
      rewrite E in Hkeep. simpl in Hkeep. rewrite Hkeep by reflexivity. congruence. }
  destruct (get_activities_cached_calls requests self after2 per_page2 _ Hsome)
    as (Hcalls & Htoken).
  split; [|exact Htoken].
  rewrite Hcalls, Hfirst, <- app_assoc. reflexivity.
Qed.

(** ** [main] *)

Lemma main_batch_run {W} (self : NotionClient W)
    (activities : list (gmap string value)) (s : state W) :
  activities <> [] ->
  main_batch self activities s
    = (sync_final self activities s,
       Ok (Some (count true (sync_outcomes self activities s),
                 count false (sync_outcomes self activities s)))).
Proof.
  intros Hne. destruct activities as [|activity rest]; [done|].
  unfold main_batch, bind. by rewrite sync_loop_run.
Qed.

(** X15: when one of the three Strava variables is unset or empty, [main]
    ends with the Strava [ValueError], and when those are set and one of
    the three Notion variables is unset or empty, with the Notion one; in
    both cases before any request to Strava and any call to the store. *)
Theorem main_missing_configuration {H W} (requests : Requests H)
    (connect : string -> Client W) (env : gmap string string)
    (after_timestamp : Z) (h : H) (w : W) :
  let untouched :=
    ({| http := h; http_calls := []; access_token := VNone |},
     {| world := w; calls := [] |}) in
  let strava_set :=
    forallb is_set [env !! "STRAVA_CLIENT_ID"; env !! "STRAVA_CLIENT_SECRET";
                    env !! "STRAVA_REFRESH_TOKEN"] in
  let notion_set :=
    forallb is_set [env !! "NOTION_TOKEN"; env !! "NOTION_ACTIVITIES_DB_ID";
                    env !! "NOTION_PLANNED_DB_ID"] in
  (strava_set = false ->
     main requests connect env after_timestamp h w
       = (untouched, Fatal (ValueError strava_missing)))
  /\ (strava_set = true -> notion_set = false ->
     main requests connect env after_timestamp h w
       = (untouched, Fatal (ValueError notion_missing))).
Proof.
  simpl. split.
  - intros Hs. unfold main, get_strava_client. simpl. by rewrite Hs.
  - intros Hs Hn. unfold main, get_strava_client, get_notion_client. simpl.
    by rewrite Hs, Hn.
Qed.

(** X16: when the configuration is complete and fetching the activities
    raises, [main] ends with that error and the store is never called. *)
Theorem main_fetch_fails {H W} (requests : Requests H)
    (connect : string -> Client W) (env : gmap string string)
    (after_timestamp : Z) (h : H) (w : W)
    (strava_client : StravaClient) (notion_client : NotionClient W)
    (st : strava_state H) (e : exn) :
  get_strava_client env = Returned strava_client ->
  get_notion_client connect env = Returned notion_client ->
  get_activities requests strava_client (Some after_timestamp) 30
    {| http := h; http_calls := []; access_token := VNone |} = (st, Raised e) ->
  main requests connect env after_timestamp h w
    = ((st, {| world := w; calls := [] |}), Fatal (Uncaught e)).
Proof.
  intros Hs Hn Hfetch. unfold main. by rewrite Hs, Hn, Hfetch.
Qed.

(** X17: when Strava returns no activity, [main] returns without a tally
    and without calling the store. *)
Theorem main_nothing_to_sync {H W} (requests : Requests H)
    (connect : string -> Client W) (env : gmap string string)
    (after_timestamp : Z) (h : H) (w : W)
    (strava_client : StravaClient) (notion_client : NotionClient W)
    (st : strava_state H) :
  get_strava_client env = Returned strava_client ->
  get_notion_client connect env = Returned notion_client ->
  get_activities requests strava_client (Some after_timestamp) 30
    {| http := h; http_calls := []; access_token := VNone |} = (st, Ok []) ->
  main requests connect env after_timestamp h w
    = ((st, {| world := w; calls := [] |}), Returned None).
Proof.
  intros Hs Hn Hfetch. unfold main. by rewrite Hs, Hn, Hfetch.
Qed.

(** X18: once a non-empty list of activities is fetched, [main] cannot
    fail any more: it syncs the whole list and returns a tally of successes
    and failures that adds up to the number of activities fetched. *)
Theorem main_tally {H W} (requests : Requests H)
    (connect : string -> Client W) (env : gmap string string)
    (after_timestamp : Z) (h : H) (w : W)
    (strava_client : StravaClient) (notion_client : NotionClient W)
    (st : strava_state H) (activities : list (gmap string value)) :
  get_strava_client env = Returned strava_client ->
  get_notion_client connect env = Returned notion_client ->
  get_activities requests strava_client (Some after_timestamp) 30
    {| http := h; http_calls := []; access_token := VNone |} = (st, Ok activities) ->
  activities <> [] ->
  let start := {| world := w; calls := [] |} in
  exists success_count failure_count,
    main requests connect env after_timestamp h w
      = ((st, sync_final notion_client activities start),
         Returned (Some (success_count, failure_count)))
    /\ success_count = count true (sync_outcomes notion_client activities start)
    /\ failure_count = count false (sync_outcomes notion_client activities start)
    /\ success_count + failure_count = length activities.
Proof.
  intros Hs Hn Hfetch Hne. simpl.
  eexists _, _. unfold main. rewrite Hs, Hn, Hfetch, main_batch_run by done.
  split; [reflexivity|]. split; [reflexivity|]. split; [reflexivity|].
  by rewrite count_partition, sync_outcomes_length.
Qed.

(** X19: with a complete configuration, the first request of [main] is
    always the token request, made with the three Strava variables of the
    environment, and at most one request follows it. *)
Theorem main_requests_token_first {H W} (requests : Requests H)
    (connect : string -> Client W) (env : gmap string string)
    (after_timestamp : Z) (h : H) (w : W)
    (strava_client : StravaClient) (notion_client : NotionClient W) :
  get_strava_client env = Returned strava_client ->
  get_notion_client connect env = Returned notion_client ->
  env !! "STRAVA_CLIENT_ID" = Some (client_id strava_client)
  /\ env !! "STRAVA_CLIENT_SECRET" = Some (client_secret strava_client)
  /\ env !! "STRAVA_REFRESH_TOKEN" = Some (refresh_token strava_client)
  /\ exists rest,
       http_calls (main requests connect env after_timestamp h w).1.1
         = HttpPost TOKEN_URL (token_payload strava_client) :: rest
       /\ length rest <= 1
       /\ List.filter is_post rest = [].
Proof.
  intros Hs Hn.
  assert (Henv : env !! "STRAVA_CLIENT_ID" = Some (client_id strava_client)
                 /\ env !! "STRAVA_CLIENT_SECRET" = Some (client_secret strava_client)
                 /\ env !! "STRAVA_REFRESH_TOKEN" = Some (refresh_token strava_client)).
  { unfold get_strava_client in Hs. simpl in Hs.
    destruct (env !! "STRAVA_CLIENT_ID") as [a|]; [|discriminate].
    destruct (env !! "STRAVA_CLIENT_SECRET") as [b|];
      [|by rewrite andb_false_r in Hs].
    destruct (env !! "STRAVA_REFRESH_TOKEN") as [c|];
      [|by rewrite !andb_false_r in Hs].
    destruct (negb _); [discriminate|]. injection Hs as <-. by repeat split. }
  destruct Henv as (Hid & Hsecret & Hrefresh).
  split; [exact Hid|]. split; [exact Hsecret|]. split; [exact Hrefresh|].
  unfold main. rewrite Hs, Hn. unfold get_activities. simpl.
  pose proof (get_access_token_calls requests strava_client
                {| http := h; http_calls := []; access_token := VNone |}) as Hcalls.
  destruct (get_access_token _ _ _) as [st1 [token|e]]; simpl in Hcalls.
  - destruct (requests_get _ _ _ _ _) as [h' r].
    destruct (rbind r _) as [activities|e]; simpl.
    + destruct (main_batch _ _ _) as [n' [tally|e]]; simpl;
        rewrite Hcalls; eexists; (split; [reflexivity|]); by split.
    + rewrite Hcalls. eexists; (split; [reflexivity|]); by split.
  - simpl. rewrite Hcalls. exists []. split; [reflexivity|].
    split; [simpl; lia | reflexivity].
Qed.

(** ** The further properties on concrete runs *)


Lemma create_activity_keys_witness :
  writes_record (Mock.notion Mock.healthy) Mock.paced_run "Run" Mock.init
    (Mock.sent Mock.paced_run "Run")
  /\ Mock.sent Mock.paced_run "Run" !! "Strava ID" = Some (PNumber (get Mock.paced_run "id")).
Proof.
  assert (H : writes_record (Mock.notion Mock.healthy) Mock.paced_run "Run" Mock.init
                (Mock.sent Mock.paced_run "Run")).
  { apply properties_written. vm_compute. reflexivity. }
  split; [exact H|].
  exact (proj1 (proj2 (proj2 (create_activity_keys _ _ _ _ _ H)))).
Defined.

Lemma sync_activity_create_refused_witness :
  sync_activity (Mock.notion Mock.rejects_2) Samples.tuesday_ride Mock.init
    = ({| world := tt;
          calls := [ DatabasesQuery "activities" (exists_filter (VNum 2));
                     PagesCreate "activities" (Mock.sent Samples.tuesday_ride "Ride") ] |},
       Ok false).
Proof.
  set (nc := Mock.notion Mock.rejects_2).
  pose (s1 := (activity_exists nc (get Samples.tuesday_ride "id") Mock.init).1).
  assert (H1 : activity_exists nc (get Samples.tuesday_ride "id") Mock.init
               = (s1, Ok false)) by (vm_compute; reflexivity).
  assert (H2 : supported (get_sport_type Samples.tuesday_ride) = true)
    by (vm_compute; reflexivity).
  assert (H3 : activity_properties Samples.tuesday_ride
                 (get_sport_type Samples.tuesday_ride)
               = Ok (Mock.sent Samples.tuesday_ride "Ride"))
    by (vm_compute; reflexivity).
  rewrite (proj1 (sync_activity_create_refused nc Samples.tuesday_ride Mock.init s1
                    _ H1 H2 H3) (ClientError "validation"))
    by (vm_compute; reflexivity).
  vm_compute. reflexivity.
Defined.

Lemma sync_activity_unsendable_witness :
  sync_activity (Mock.notion Mock.healthy) Samples.null_distance_run Mock.init
    = ({| world := tt;
          calls := [DatabasesQuery "activities" (exists_filter (VNum 42))] |},
       Ok false).
Proof.
  set (nc := Mock.notion Mock.healthy).
  pose (s1 := (activity_exists nc (get Samples.null_distance_run "id") Mock.init).1).
  assert (H1 : activity_exists nc (get Samples.null_distance_run "id") Mock.init
               = (s1, Ok false)) by (vm_compute; reflexivity).
  assert (H2 : supported (get_sport_type Samples.null_distance_run) = true)
    by (vm_compute; reflexivity).
  assert (H3 : sendable Samples.null_distance_run
                 (get_sport_type Samples.null_distance_run) = false)
    by (vm_compute; reflexivity).
  rewrite (proj1 (sync_activity_unsendable nc Samples.null_distance_run Mock.init s1
                    H1 H2 H3)).
  vm_compute. reflexivity.
Defined.

Lemma find_planned_activity_ignores_time_witness :
  date_only_of (VStr ("2024-05-01" ++ "T" ++ "07:00:00Z")) = Ok "2024-05-01".
Proof.
  exact (proj1 (find_planned_activity_ignores_time (Mock.notion Mock.healthy)
                  "2024-05-01" "07:00:00Z" "Run" Mock.init eq_refl)).
Defined.


Lemma get_access_token_result_witness :
  access_token (get_access_token (MockStrava.online []) MockStrava.athlete
                  MockStrava.fresh).1 = VStr "token-1"
  /\ access_token (get_access_token MockStrava.unauthorized MockStrava.athlete
                     Samples.signed_in).1 = VStr "token-0".
Proof.
  split.
  - apply (proj1 (proj2 (proj2 (proj2 (proj2 (proj2
             (get_access_token_result (MockStrava.online []) MockStrava.athlete
                MockStrava.fresh)))))) (VStr "token-1")).
    vm_compute. reflexivity.
  - apply (proj2 (proj2 (proj2 (proj2 (proj2 (proj2
             (get_access_token_result MockStrava.unauthorized MockStrava.athlete
                Samples.signed_in)))))) (ClientError "401")).
    vm_compute. reflexivity.
Defined.

Lemma get_activities_cached_witness :
  http_calls (get_activities (MockStrava.online Mock.batch) MockStrava.athlete
                (Some 0%Z) 30 Samples.signed_in).1
    = [HttpGet activities_url (VStr "token-0") {| per_page := 30; after := None |}]
  /\ (get_activities (MockStrava.online Mock.batch) MockStrava.athlete
        (Some 0%Z) 30 Samples.signed_in).2 = Ok Mock.batch.
Proof.
  pose proof (get_activities_cached (MockStrava.online Mock.batch) MockStrava.athlete
                (Some 0%Z) 30 Samples.signed_in eq_refl) as (Hcalls & _ & _ & _ & _ & _ & Hok).
  split; [exact Hcalls|].
  exact (Hok (MockStrava.list_response Mock.batch) eq_refl eq_refl).
Defined.

Lemma get_activities_refresh_fails_witness :
  (get_activities MockStrava.unauthorized MockStrava.athlete None 30
     MockStrava.fresh).2 = Raised (ClientError "401")
  /\ http_calls (get_activities MockStrava.unauthorized MockStrava.athlete None 30
                   MockStrava.fresh).1
     = [HttpPost TOKEN_URL (token_payload MockStrava.athlete)].
Proof.
  pose proof (get_activities_refresh_fails MockStrava.unauthorized MockStrava.athlete
                None 30 MockStrava.fresh (ClientError "401") eq_refl
                ltac:(vm_compute; reflexivity)) as (Hrun & Hcalls & _).
  exact (conj Hrun Hcalls).
Defined.

Lemma get_activities_twice_witness :
  List.filter is_post
    (http_calls
       (get_activities MockStrava.flaky MockStrava.athlete (Some 1714000000%Z) 30
          (get_activities MockStrava.flaky MockStrava.athlete (Some 1714000000%Z) 30
             MockStrava.fresh).1).1)
    = [HttpPost TOKEN_URL (token_payload MockStrava.athlete)].
Proof.
  rewrite (proj1 (get_activities_twice MockStrava.flaky MockStrava.athlete
                    (Some 1714000000%Z) (Some 1714000000%Z) 30 30 MockStrava.fresh
                    eq_refl ltac:(vm_compute; reflexivity))).
  vm_compute. reflexivity.
Defined.

Lemma main_missing_configuration_witness :
  (main (MockStrava.online Mock.batch) (Samples.connect Mock.healthy)
     Samples.empty_secret 1714000000 tt tt).2 = Fatal (ValueError strava_missing)
  /\ (main (MockStrava.online Mock.batch) (Samples.connect Mock.healthy)
        Samples.no_notion_token 1714000000 tt tt).2 = Fatal (ValueError notion_missing).
Proof.
  split.
  - rewrite (proj1 (main_missing_configuration (MockStrava.online Mock.batch)
                      (Samples.connect Mock.healthy) Samples.empty_secret
                      1714000000 tt tt))
      by (vm_compute; reflexivity).
    reflexivity.
  - rewrite (proj2 (main_missing_configuration (MockStrava.online Mock.batch)
                      (Samples.connect Mock.healthy) Samples.no_notion_token
                      1714000000 tt tt))
      by (vm_compute; reflexivity).
    reflexivity.
Defined.

Lemma main_fetch_fails_witness :
  (main MockStrava.flaky (Samples.connect Mock.healthy) MockStrava.environment
     1714000000 tt tt).2 = Fatal (Uncaught (ClientError "timeout"))
  /\ calls (main MockStrava.flaky (Samples.connect Mock.healthy)
              MockStrava.environment 1714000000 tt tt).1.2 = [].
Proof.
  rewrite (main_fetch_fails MockStrava.flaky (Samples.connect Mock.healthy)
             MockStrava.environment 1714000000 tt tt MockStrava.athlete
             (Samples.notion_of_environment Mock.healthy)
             (get_activities MockStrava.flaky MockStrava.athlete
                (Some 1714000000%Z) 30 MockStrava.fresh).1
             (ClientError "timeout"))
    by (vm_compute; reflexivity).
  by split.
Defined.

Lemma main_nothing_to_sync_witness :
  (main (MockStrava.online []) (Samples.connect Mock.healthy) MockStrava.environment
     1714000000 tt tt).2 = Returned None
  /\ calls (main (MockStrava.online []) (Samples.connect Mock.healthy)
              MockStrava.environment 1714000000 tt tt).1.2 = [].
Proof.
  rewrite (main_nothing_to_sync (MockStrava.online []) (Samples.connect Mock.healthy)
             MockStrava.environment 1714000000 tt tt MockStrava.athlete
             (Samples.notion_of_environment Mock.healthy)
             (get_activities (MockStrava.online []) MockStrava.athlete
                (Some 1714000000%Z) 30 MockStrava.fresh).1)
    by (vm_compute; reflexivity).
  by split.
Defined.

Lemma main_tally_witness :
  (main (MockStrava.online Mock.batch) (Samples.connect Mock.rejects_2)
     MockStrava.environment 1714000000 tt tt).2 = Returned (Some (2, 1)).
Proof.
  destruct (main_tally (MockStrava.online Mock.batch) (Samples.connect Mock.rejects_2)
              MockStrava.environment 1714000000 tt tt MockStrava.athlete
              (Samples.notion_of_environment Mock.rejects_2)
              (get_activities (MockStrava.online Mock.batch) MockStrava.athlete
                 (Some 1714000000%Z) 30 MockStrava.fresh).1
              Mock.batch
              ltac:(vm_compute; reflexivity) ltac:(vm_compute; reflexivity)
              ltac:(vm_compute; reflexivity) ltac:(discriminate))
    as (sc & fc & -> & -> & -> & _).
  vm_compute. reflexivity.
Defined.

Lemma main_requests_token_first_witness :
  MockStrava.environment !! "STRAVA_CLIENT_ID" = Some "12345"
  /\ exists rest,
       http_calls (main MockStrava.flaky (Samples.connect Mock.healthy)
                     MockStrava.environment 1714000000 tt tt).1.1
         = HttpPost TOKEN_URL (token_payload MockStrava.athlete) :: rest
       /\ length rest <= 1
       /\ List.filter is_post rest = [].
Proof.
  pose proof (main_requests_token_first MockStrava.flaky (Samples.connect Mock.healthy)
                MockStrava.environment 1714000000 tt tt MockStrava.athlete
                (Samples.notion_of_environment Mock.healthy)
                ltac:(vm_compute; reflexivity) ltac:(vm_compute; reflexivity))
    as (Hid & _ & _ & Hrest).
  exact (conj Hid Hrest).
Defined.
